(** * generate_html.py: a shallow embedding and its verified properties

    The script reads a plain-text regression report and a two-line head
    file, renders three HTML tables, substitutes them into a template,
    builds an (unsent) e-mail and writes the HTML next to the report.

    Python [str] values are modelled by [string]; a character stands for
    a code point below 256.  On that range the built-ins used by the
    script ([str.split], [str.lower], [str.replace], [str.rstrip],
    indexing, [str.join]) are modelled exactly.  Exceptions are values of
    [exn]; code that can raise returns a [result].  File and console
    effects are threaded through an explicit [world]. *)

From Stdlib Require Import String Ascii List Bool Arith Lia ZArith DecimalString.
From stdpp Require Import gmap strings.
Import ListNotations.

(* stdpp freezes [String.append] under [simpl]; the proofs below compute with it. *)
#[local] Arguments String.append !s1 s2 : simpl nomatch.

(** ** Characters and strings *)

Definition nl : string := String "010" "".
Definition dq : string := String "034" "".

(** [str.isspace] on code points below 256 (the separators of
    [str.split()] and the characters removed by [str.rstrip()]). *)
Definition isspace (c : ascii) : bool :=
  let n := nat_of_ascii c in
  ((9 <=? n) && (n <=? 13)) || ((28 <=? n) && (n <=? 32))
  || (n =? 133) || (n =? 160).

(** [str.lower] on one code point below 256: A-Z and the Latin-1 capitals
    (U+00C0-U+00DE except the multiplication sign U+00D7) move up by 32. *)
Definition lower_char (c : ascii) : ascii :=
  let n := nat_of_ascii c in
  if ((65 <=? n) && (n <=? 90))
     || ((192 <=? n) && (n <=? 222) && negb (n =? 215))
  then ascii_of_nat (n + 32) else c.

Fixpoint lower (s : string) : string :=
  match s with
  | EmptyString => EmptyString
  | String c s' => String (lower_char c) (lower s')
  end.

(** [s.split()] with no separator: maximal runs of non-space characters.
    [cur] is the token being read. *)
Fixpoint split_from (cur : string) (s : string) : list string :=
  match s with
  | EmptyString => match cur with EmptyString => [] | _ => [cur] end
  | String c s' =>
      if isspace c then
        match cur with
        | EmptyString => split_from EmptyString s'
        | _ => cur :: split_from EmptyString s'
        end
      else split_from (cur +:+ String c EmptyString) s'
  end.

Definition split (s : string) : list string := split_from EmptyString s.

(** [s.split(sep)] for a one-character separator: empty fields are kept. *)
Fixpoint split_on_from (sep : ascii) (cur : string) (s : string) : list string :=
  match s with
  | EmptyString => [cur]
  | String c s' =>
      if Ascii.eqb c sep then cur :: split_on_from sep EmptyString s'
      else split_on_from sep (cur +:+ String c EmptyString) s'
  end.

Definition split_on (sep : ascii) (s : string) : list string :=
  split_on_from sep EmptyString s.

(** [s.replace(old, new)] for a one-character [old], as both call sites
    have it. *)
Fixpoint replace (old : ascii) (new : string) (s : string) : string :=
  match s with
  | EmptyString => EmptyString
  | String c s' =>
      if Ascii.eqb c old then new +:+ replace old new s'
      else String c (replace old new s')
  end.

(** [s.rstrip()]: trailing white space removed. *)
Fixpoint rstrip (s : string) : string :=
  match s with
  | EmptyString => EmptyString
  | String c s' =>
      match rstrip s' with
      | EmptyString => if isspace c then EmptyString else String c EmptyString
      | r => String c r
      end
  end.

(** [sep.join(l)] *)
Definition join (sep : string) (l : list string) : string := String.concat sep l.

(** [str(n)] for a non-negative integer. *)
Definition str_of_nat (n : nat) : string :=
  NilZero.string_of_uint (Nat.to_uint n).

(** ** Exceptions *)

Inductive exn : Type :=
| IndexError
| KeyError (name : string)
| ValueError
| FileNotFoundError (path : string)
| IsADirectoryError (path : string)
| PermissionError (path : string)
| SystemExit (code : Z).

Inductive result (A : Type) : Type :=
| Ok (a : A)
| Raise (e : exn).
Arguments Ok {A} a.
Arguments Raise {A} e.

Definition rbind {A B} (r : result A) (k : A -> result B) : result B :=
  match r with
  | Ok a => k a
  | Raise e => Raise e
  end.

Declare Scope py_scope.
Delimit Scope py_scope with py.
Notation "'let!' x ':=' r 'in' k" := (rbind r (fun x => k))
  (at level 10, x name, r at level 100, k at level 200) : py_scope.
Open Scope py_scope.

(** [l[i]] for a non-negative literal index. *)
Definition index {A} (l : list A) (i : nat) : result A :=
  match nth_error l i with
  | Some a => Ok a
  | None => Raise IndexError
  end.

(** [s[i]] on a string. *)
Definition char_at (s : string) (i : nat) : result ascii :=
  match String.get i s with
  | Some c => Ok c
  | None => Raise IndexError
  end.

(** ** Constants of the script *)

Definition TABLE_HEADER : list string :=
  ["Test ID"; "Result ID"; "Result Dir or Test Name"; "Cycles"; "Status";
   "Bucket"; "Seed"].

Definition TABLE_STAT1 : list string := ["Bucket"; "Count"; "Bucket Name"].

Definition TABLE_STAT2 : list string :=
  ["PASS"; "FAIL"; "No Status"; "Total"; "% Passing"].

(** ** collect_results: the loop over the lines of the report *)

(** The third disjunct of the filter on its own: [line.split()[0][0] == '-']. *)
Definition first_char_is_dash (line : string) : result bool :=
  let! tok := index (split line) 0 in
  let! c := char_at tok 0 in
  Ok (Ascii.eqb c "-").

(** [(i <= 2) or (len(line.split()) < 4) or (line.split()[0][0] == '-')];
    [or] evaluates its right operand only when the left one is false. *)
Definition skip_line (i : nat) (line : string) : result bool :=
  if i <=? 2 then Ok true
  else if length (split line) <? 4 then Ok true
  else first_char_is_dash line.

Fixpoint collect_loop (lines : list string) (i : nat)
    (test_list : list (list string)) : result (list (list string)) :=
  match lines with
  | [] => Ok test_list
  | line :: rest =>
      let i := i + 1 in
      let! skip := skip_line i line in
      if skip : bool then collect_loop rest i test_list
      else
        let line := replace "<" "&lt" line in
        let line := replace ">" "&gt" line in
        collect_loop rest i (test_list ++ [split line])
  end.

(** The body of [collect_results] between opening and closing the file:
    [lines] are the lines the file iterator yields. *)
Definition collect_lines (lines : list string) : result (list (list string)) :=
  collect_loop lines 0 [].

(** ** collect_head and create_head *)

(** The loop of [collect_head]: one token list per line, nothing dropped. *)
Definition collect_head_lines (lines : list string) : list (list string) :=
  fold_left (fun head_info line => head_info ++ [split line]) lines [].

Definition create_head (head_info : list (list string)) : result string :=
  let head := [] in
  let head := head ++ ["<p>" +:+ nl] in
  let! l0 := index head_info 0 in
  let! path := index l0 0 in
  let head := head ++ ["<b>Regression test path: </b>" +:+ path +:+ "<br>" +:+ nl] in
  let! l1 := index head_info 1 in
  let! commit := index l1 0 in
  let head :=
    head ++ ["<b>Latest commit on test branch: </b>" +:+ commit +:+ "<br>" +:+ nl] in
  let head := head ++ ["</p>" +:+ nl] in
  Ok (join "" head).

(** ** create_table *)

(** The loop state of [create_table]: the two mode flags and the three
    lists of HTML fragments being built. *)
Record tables : Type := Tables {
  stat1 : bool;
  stat2 : bool;
  stat1_table : list string;
  stat2_table : list string;
  test_table : list string
}.

Definition td_center (item : string) : string :=
  "<td class='center'>" +:+ item +:+ "</td>".

Definition td_left (item : string) : string :=
  "<td class='left'>" +:+ item +:+ "</td>".

Definition td_pass : string :=
  "<td style=" +:+ dq +:+
  "background-color:ForestGreen; color:White; text-align:center;" +:+ dq +:+
  ">PASS</td>".

Definition td_fail : string :=
  "<td style=" +:+ dq +:+
  "background-color:Red; color:White; text-align:center;" +:+ dq +:+
  ">Fail</td>".

Definition tr_open : string := "<tr>".
Definition tr_close : string := "</tr>" +:+ nl.

(** One pass of the inner loop of the normal branch. *)
Definition status_cell (test_table : list string) (item : string) : list string :=
  if String.eqb (lower item) "pass" then
    (test_table ++ [td_pass]) ++ ["<td class='left'>" +:+ "</td>"]
  else if String.eqb (lower item) "fail" then test_table ++ [td_fail]
  else test_table ++ [td_left item].

(** One pass of the inner loop of the summary branch. *)
Definition summary_cell (stat2_table : list string) (item : string) : list string :=
  stat2_table ++ [td_center item].

(** One pass of the loop [for test in test_list]. *)
Definition table_row (st : tables) (test : list string) : result tables :=
  let! t0 := index test 0 in
  if String.eqb (lower t0) "bucket" then
    Ok (Tables true (stat2 st) (stat1_table st) (stat2_table st) (test_table st))
  else
    let! t0 := index test 0 in
    if String.eqb (lower t0) "pass" then
      Ok (Tables false true (stat1_table st) (stat2_table st) (test_table st))
    else if stat1 st then
      let s1 := stat1_table st ++ [tr_open] in
      let bucketName := join " " (skipn (length TABLE_STAT1 - 1) test) in
      let! c0 := index test 0 in
      let s1 := s1 ++ [td_center c0] in
      let! c1 := index test 1 in
      let s1 := s1 ++ [td_center c1] in
      let s1 := s1 ++ [td_center bucketName] in
      let s1 := s1 ++ [tr_close] in
      Ok (Tables (stat1 st) (stat2 st) s1 (stat2_table st) (test_table st))
    else if stat2 st then
      let s2 := stat2_table st ++ [tr_open] in
      let s2 := fold_left summary_cell test s2 in
      let s2 := s2 ++ [tr_close] in
      Ok (Tables (stat1 st) false (stat1_table st) s2 (test_table st))
    else
      let tt := test_table st ++ [tr_open] in
      let tt := fold_left status_cell test tt in
      let tt := tt ++ [tr_close] in
      Ok (Tables (stat1 st) (stat2 st) (stat1_table st) (stat2_table st) tt).

Fixpoint table_rows (test_list : list (list string)) (st : tables) : result tables :=
  match test_list with
  | [] => Ok st
  | test :: rest =>
      let! st := table_row st test in
      table_rows rest st
  end.

Definition thead (style : string) (table_header : list string) : string :=
  "<thead" +:+ style +:+ "><tr><th>" +:+ join "</th><th>" table_header
  +:+ "</th></tr></thead>" +:+ nl.

Definition stat_style : string :=
  " style=" +:+ dq +:+ "background-color:CornflowerBlue; font-size:1em" +:+ dq.

(** The state when the loop starts: the three tables hold their opening
    tag and header row, both flags are off. *)
Definition tables_init : tables :=
  Tables false false
    ["<table>"; thead stat_style TABLE_STAT1]
    ["<table>"; thead stat_style TABLE_STAT2]
    ["<table>"; thead "" TABLE_HEADER].

Definition table_foot : list string :=
  ["</tbody>" +:+ nl; "<tfoot></tfoot>" +:+ nl; "</table>" +:+ nl].

Definition create_table (test_list : list (list string)) : result string :=
  let! st := table_rows test_list tables_init in
  let test_table := test_table st ++ table_foot in
  let stat1_table := (stat1_table st ++ table_foot) ++ ["<p> </p>" +:+ nl] in
  let stat2_table := (stat2_table st ++ table_foot) ++ ["<p> </p>" +:+ nl] in
  let tables := (stat1_table ++ stat2_table) ++ test_table in
  Ok (join "" tables).

(** ** Files, console and clock *)

Inductive event : Type :=
| Printed (text : string)
| Opened (path : string) (mode : string).

(** What the script sees and changes: the text of each existing file,
    the console and file operations so far (oldest first), the value
    [time.strftime("%Y%m%dT%H%M")] has during the run, the path the
    module constant TEMPLATE_PATH evaluates to, and the paths the
    operating system refuses to open for writing (a directory, a
    read-only file, a missing parent directory), each with the
    exception [open(path, 'w')] raises for it. *)
Record world : Type := World {
  files : gmap string string;
  events : list event;
  strftime_now : string;
  TEMPLATE_PATH : string;
  unwritable : gmap string exn
}.

Definition io (A : Type) : Type := world -> result A * world.

Definition ret {A} (a : A) : io A := fun w => (Ok a, w).

Definition raise {A} (e : exn) : io A := fun w => (Raise e, w).

Definition bind {A B} (m : io A) (k : A -> io B) : io B :=
  fun w =>
    match m w with
    | (Ok a, w') => k a w'
    | (Raise e, w') => (Raise e, w')
    end.

Definition lift {A} (r : result A) : io A := fun w => (r, w).

Notation "'do!' x ':=' m 'in' k" := (bind m (fun x => k))
  (at level 10, x name, m at level 100, k at level 200) : py_scope.

Definition log (e : event) (w : world) : world :=
  World (files w) (events w ++ [e]) (strftime_now w) (TEMPLATE_PATH w)
    (unwritable w).

(** [print(...)]: the arguments separated by one space, then a newline. *)
Definition print (args : list string) : io unit :=
  fun w => (Ok tt, log (Printed (join " " args +:+ nl)) w).

(** [open(path)] for reading: the text of the file. *)
Definition open_read (path : string) : io string :=
  fun w =>
    match files w !! path with
    | Some text => (Ok text, log (Opened path "r") w)
    | None => (Raise (FileNotFoundError path), w)
    end.

(** [open(path, 'w')], [write(data)], [close()]: the open raises when
    the operating system refuses the path; otherwise the file holds
    [data] afterwards. *)
Definition write_file (path data : string) : io unit :=
  fun w =>
    match unwritable w !! path with
    | Some e => (Raise e, w)
    | None =>
        (Ok tt,
         World (<[path := data]> (files w)) (events w ++ [Opened path "w"])
           (strftime_now w) (TEMPLATE_PATH w) (unwritable w))
    end.

Definition strftime : io string := fun w => (Ok (strftime_now w), w).

Definition template_path : io string := fun w => (Ok (TEMPLATE_PATH w), w).

(** The lines a text file yields when iterated (and [readlines()]):
    a line feed, a carriage return or the pair of them ends a line and
    is read as one line feed. *)
Fixpoint lines_from (cur : string) (s : string) : list string :=
  match s with
  | EmptyString => match cur with EmptyString => [] | _ => [cur] end
  | String c s' =>
      if Ascii.eqb c "010" then (cur +:+ nl) :: lines_from EmptyString s'
      else if Ascii.eqb c "013" then
        match s' with
        | String "010" s'' => (cur +:+ nl) :: lines_from EmptyString s''
        | _ => (cur +:+ nl) :: lines_from EmptyString s'
        end
      else lines_from (cur +:+ String c EmptyString) s'
  end.

Definition text_lines (text : string) : list string := lines_from EmptyString text.

(** [file.read()] *)
Definition read_all (text : string) : string := join "" (text_lines text).

Definition read_file (fname : string) (delim : option ascii)
  : io (list (list string)) :=
  do! filehandler := open_read fname in
  let data := text_lines filehandler in
  let data := map rstrip data in
  let lines :=
    map (fun x => match delim with None => split x | Some d => split_on d x end)
      data in
  ret lines.

Definition collect_results (testsfile : string) : io (list (list string)) :=
  do! ftext := open_read testsfile in
  do! test_list := lift (collect_lines (text_lines ftext)) in
  do! _ := print ["Total "; str_of_nat (length test_list); "  tests"] in
  ret test_list.

Definition collect_head (headfile : string) : io (list (list string)) :=
  do! ftext := open_read headfile in
  ret (collect_head_lines (text_lines ftext)).

(** ** string.Template(template).substitute(body=...) *)

Definition is_id_start (c : ascii) : bool :=
  let n := nat_of_ascii c in
  (n =? 95) || ((97 <=? n) && (n <=? 122)) || ((65 <=? n) && (n <=? 90)).

Definition is_id_char (c : ascii) : bool :=
  let n := nat_of_ascii c in
  is_id_start c || ((48 <=? n) && (n <=? 57)).

Inductive scan : Type :=
| Text
| Dollar
| Named (name : string)
| BraceOpen
| Braced (name : string).

(** The only keyword argument is [body]. *)
Definition lookup_body (body name : string) : result string :=
  if String.eqb name "body" then Ok body else Raise (KeyError name).

Fixpoint substitute_from (body : string) (st : scan) (out : string)
    (s : string) : result string :=
  match s with
  | EmptyString =>
      match st with
      | Text => Ok out
      | Named name => let! v := lookup_body body name in Ok (out +:+ v)
      | _ => Raise ValueError
      end
  | String c s' =>
      match st with
      | Text =>
          if Ascii.eqb c "$" then substitute_from body Dollar out s'
          else substitute_from body Text (out +:+ String c EmptyString) s'
      | Dollar =>
          if Ascii.eqb c "$" then substitute_from body Text (out +:+ "$") s'
          else if is_id_start c then
            substitute_from body (Named (String c EmptyString)) out s'
          else if Ascii.eqb c "{" then substitute_from body BraceOpen out s'
          else Raise ValueError
      | Named name =>
          if is_id_char c then
            substitute_from body (Named (name +:+ String c EmptyString)) out s'
          else
            let! v := lookup_body body name in
            if Ascii.eqb c "$" then substitute_from body Dollar (out +:+ v) s'
            else substitute_from body Text ((out +:+ v) +:+ String c EmptyString) s'
      | BraceOpen =>
          if is_id_start c then
            substitute_from body (Braced (String c EmptyString)) out s'
          else Raise ValueError
      | Braced name =>
          if is_id_char c then
            substitute_from body (Braced (name +:+ String c EmptyString)) out s'
          else if Ascii.eqb c "}" then
            let! v := lookup_body body name in
            substitute_from body Text (out +:+ v) s'
          else Raise ValueError
      end
  end.

Definition substitute (template body : string) : result string :=
  substitute_from body Text EmptyString template.

Definition create_message (test_list head_info : list (list string)) : io string :=
  do! timestamp := strftime in
  let title := "UVM Regression Tests " +:+ timestamp in
  let html_title := "<h1>" +:+ title +:+ "</h1>" in
  do! html_head := lift (create_head head_info) in
  do! html_tables := lift (create_table test_list) in
  do! path := template_path in
  do! template := read_file path (Some "010"%char) in
  let template := map (join "") template in
  let template := join nl template in
  let html_report := (html_title +:+ html_head) +:+ html_tables in
  lift (substitute template html_report).

(** The message [create_email] builds and drops: its headers in the
    order they are set, and the HTML part attached. *)
Record message : Type := Message {
  headers : list (string * string);
  attached : list string
}.

Definition set_header (m : message) (name value : string) : message :=
  Message (headers m ++ [(name, value)]) (attached m).

Definition create_email (to_file cc_file html_report : string) : io unit :=
  let domain := "intel.com" in
  let user := "psgpac" in
  let sender_email := (user +:+ "@") +:+ domain in
  let message := Message [] [] in
  let message_subject :=
    "Regression results for OFS FIM UVM simulation --- test from Ling" in
  let message := set_header message "Subject" message_subject in
  let message := set_header message "From" sender_email in
  do! file := open_read to_file in
  let message := set_header message "To" (read_all file) in
  do! file := open_read cc_file in
  let message := set_header message "CC" (read_all file) in
  let message := set_header message "X-Regtest-Title" message_subject in
  let message := set_header message "X-Regtest-Failed" "" in
  let message := set_header message "X-Regtest-Passed" "" in
  let message := set_header message "X-Regtest-Timeout" "" in
  let message := set_header message "X-Regtest-Missing" "" in
  let message := set_header message "X-Regtest-Total" "" in
  let message := Message (headers message) (attached message ++ [html_report]) in
  ret tt.

(** ** os.path.splitext (POSIX) *)

(** [s.rfind(c)]: the last index of [c], or -1. *)
Fixpoint rfind_from (c : ascii) (s : string) (i : Z) (last : Z) : Z :=
  match s with
  | EmptyString => last
  | String x s' => rfind_from c s' (i + 1) (if Ascii.eqb x c then i else last)
  end.

Definition rfind (c : ascii) (s : string) : Z := rfind_from c s 0 (-1).

(** [s[:n]] and [s[n:]] for [0 <= n]. *)
Fixpoint take_str (n : nat) (s : string) : string :=
  match n, s with
  | S n', String c s' => String c (take_str n' s')
  | _, _ => EmptyString
  end.

Fixpoint drop_str (n : nat) (s : string) : string :=
  match n, s with
  | S n', String _ s' => drop_str n' s'
  | _, _ => s
  end.

(** The loop that skips leading dots of the file name; [n] counts the
    indices left before [dotIndex]. *)
Fixpoint skip_dots (p : string) (filenameIndex : nat) (n : nat)
    (dotIndex : nat) : string * string :=
  match n with
  | 0 => (p, EmptyString)
  | S n' =>
      if negb (String.eqb (take_str 1 (drop_str filenameIndex p)) ".") then
        (take_str dotIndex p, drop_str dotIndex p)
      else skip_dots p (filenameIndex + 1) n' dotIndex
  end.

Definition splitext (p : string) : string * string :=
  let sepIndex := rfind "/" p in
  let dotIndex := rfind "." p in
  if (sepIndex <? dotIndex)%Z then
    let filenameIndex := (sepIndex + 1)%Z in
    skip_dots p (Z.to_nat filenameIndex) (Z.to_nat (dotIndex - filenameIndex))
      (Z.to_nat dotIndex)
  else (p, EmptyString).

(** ** main and the script body *)

Definition html_path (report_name : string) : string :=
  let base := fst (splitext report_name) in
  base +:+ ".html".

Definition main (to_email cc_email report_name head_name : string) : io unit :=
  do! _ := print ["to: "; to_email; nl +:+ "cc: "; cc_email;
                  nl +:+ "plain text report: "; report_name;
                  nl +:+ "head:"; head_name] in
  do! test_list := collect_results report_name in
  do! head_info := collect_head head_name in
  do! html_report := create_message test_list head_info in
  do! _ := create_email to_email cc_email html_report in
  let html_file := html_path report_name in
  write_file html_file html_report.

Definition usage : string :=
  "Usage: generate_html.py to_email_list_file cc_email_list_file plain_text_test_report head_file_name".

(** The block under [if __name__ == '__main__'], with [argv = sys.argv]. *)
Definition script (argv : list string) : io unit :=
  do! _ :=
    (if length argv <? 5 then
       do! _ := print [usage] in raise (SystemExit (-1))
     else ret tt) in
  do! a1 := lift (index argv 1) in
  do! a2 := lift (index argv 2) in
  do! a3 := lift (index argv 3) in
  do! a4 := lift (index argv 4) in
  main a1 a2 a3 a4.

(** * Specification-side definitions *)

(** No character of [w] is white space. *)
Fixpoint nonspace (w : string) : bool :=
  match w with
  | EmptyString => true
  | String c w' => negb (isspace c) && nonspace w'
  end.

(** The two [replace] calls of [collect_results], in their order. *)
Definition escape (line : string) : string :=
  replace ">" "&gt" (replace "<" "&lt" line).

(** The first token of the line starts with ['-'] (false on a blank line). *)
Definition starts_with_dash (line : string) : bool :=
  match split line with
  | String c _ :: _ => Ascii.eqb c "-"
  | _ => false
  end.

(** A line survives the filter: at least four tokens, no leading dash. *)
Definition retained (line : string) : bool :=
  (4 <=? length (split line)) && negb (starts_with_dash line).

(** The record a retained line contributes. *)
Definition record_of (line : string) : list string := split (escape line).

(** The report lines by position: a line is dropped when it is one of
    the first two, has fewer than four tokens, or starts with a dash. *)
Definition dropped (k : nat) (line : string) : Prop :=
  k < 2 \/ length (split line) < 4
  \/ exists c tok rest, split line = String c tok :: rest /\ c = "-"%char.

(** Equality up to the case of the letters A-Z. *)
Definition fold_case (c : ascii) : ascii :=
  let n := nat_of_ascii c in
  if (65 <=? n) && (n <=? 90) then ascii_of_nat (n + 32) else c.

Fixpoint fold_string (s : string) : string :=
  match s with
  | EmptyString => EmptyString
  | String c s' => String (fold_case c) (fold_string s')
  end.

Definition caseless_eq (a b : string) : bool :=
  String.eqb (fold_string a) (fold_string b).

Definition is_lower_letter (c : ascii) : bool :=
  let n := nat_of_ascii c in (97 <=? n) && (n <=? 122).

Fixpoint lower_word (w : string) : bool :=
  match w with
  | EmptyString => true
  | String c w' => is_lower_letter c && lower_word w'
  end.

(** The cells a token of a normal-mode row is rendered as. *)
Definition status_cells (item : string) : list string :=
  if caseless_eq item "pass" then [td_pass; td_left ""]
  else if caseless_eq item "fail" then [td_fail]
  else [td_left item].

(** The row starts with the summary marker. *)
Definition pass_led (test : list string) : bool :=
  match test with
  | t :: _ => caseless_eq t "pass"
  | [] => false
  end.

(** The body rows of a table under construction: for each [<tr>] ...
    [</tr>] pair, the fragments between them. *)
Fixpoint rows_from (cur : option (list string)) (frags : list string)
  : list (list string) :=
  match frags with
  | [] => []
  | f :: frags' =>
      if String.eqb f tr_open then rows_from (Some []) frags'
      else if String.eqb f tr_close then
        match cur with
        | Some cells => cells :: rows_from None frags'
        | None => rows_from None frags'
        end
      else
        match cur with
        | Some cells => rows_from (Some (cells ++ [f])) frags'
        | None => rows_from None frags'
        end
  end.

Definition body_rows (frags : list string) : list (list string) :=
  rows_from None frags.

(** The token stream of the mode-switch scenario. *)
Definition sample : list (list string) :=
  [["bucket"; "1"; "2"; "groupA"]; ["b1"; "3"; "myBucket"]; ["pass"];
   ["10"; "2"; "0"; "12"; "83%"];
   ["t1"; "r1"; "name"; "5"; "PASS"; "b1"; "42"]].

(** What the renderer makes of [sample]: one bucket row b1, 3, myBucket;
    one summary row of five cells; one normal row made of the green
    PASS cell, the empty cell after it, and [further] plain cells
    around them. *)
Definition sample_rendering (further : nat) : Prop :=
  exists st,
    table_rows sample tables_init = Ok st
    /\ body_rows (stat1_table st)
       = [[td_center "b1"; td_center "3"; td_center "myBucket"]]
    /\ (exists items,
          body_rows (stat2_table st) = [map td_center items]
          /\ length items = 5)
    /\ (exists before after,
          body_rows (test_table st)
          = [map td_left before ++ [td_pass; td_left ""] ++ map td_left after]
          /\ length before + length after = further).

(** [c] occurs in [s]. *)
Fixpoint occurs (c : ascii) (s : string) : bool :=
  match s with
  | EmptyString => false
  | String x s' => Ascii.eqb x c || occurs c s'
  end.

(** An extension as [os.path.splitext] returns it: empty, or one dot
    followed by characters that are neither a dot nor a slash. *)
Definition is_extension (ext : string) : Prop :=
  ext = "" \/ exists e, ext = String "." e /\ occurs "." e = false
                        /\ occurs "/" e = false.

(** Every character of [s] is a dot. *)
Fixpoint all_dots (s : string) : bool :=
  match s with
  | EmptyString => true
  | String c s' => Ascii.eqb c "." && all_dots s'
  end.

(** The path [p] ends in a file name with an extension: after [dir]
    comes [stem], free of slashes and not made of dots only, then a dot
    and [e], free of dots and slashes.  ([dir] may be any prefix.) *)
Definition with_extension (p dir stem e : string) : Prop :=
  p = (dir +:+ stem) +:+ String "." e
  /\ occurs "/" stem = false /\ all_dots stem = false
  /\ occurs "." e = false /\ occurs "/" e = false.

(** The path [p] ends in a file name without extension: [dir] is empty
    or ends with a slash, and what follows is a run of dots and then
    [rest], free of dots and slashes (a hidden file, a plain name, or
    nothing). *)
Definition without_extension (p dir dots rest : string) : Prop :=
  p = dir +:+ dots +:+ rest
  /\ (dir = "" \/ exists d, dir = d +:+ "/")
  /\ all_dots dots = true
  /\ occurs "." rest = false /\ occurs "/" rest = false.

(** The computation leaves the files as they are. *)
Definition keeps_files {A} (m : io A) : Prop :=
  forall w, files (snd (m w)) = files w.

(** A run directory to try the script on. *)
Definition demo_world : world :=
  World
    (<["to.txt" := "a@b.c" +:+ nl]>
       (<["cc.txt" := "d@e.f"]>
          (<["out/run.1/report.txt" :=
               "Title" +:+ nl +:+ "-----" +:+ nl +:+
               "t1 r1 testname 5 PASS b1 42" +:+ nl +:+
               "t2 r2 <other> 3 FAIL b2 7" +:+ nl]>
             (<["head.txt" := "/path/x" +:+ nl +:+ "abc123 (HEAD)" +:+ nl]>
                (<["one.txt" := "/path/x" +:+ nl]>
                   (<["/ci/email_template.css" :=
                        "<html>${body}</html>" +:+ nl]> ∅))))))
    [] "20260101T1200" "/ci/email_template.css" ∅.

(** The same directory when [out/run.1/report.html] is a directory. *)
Definition demo_world_html_is_directory : world :=
  World (files demo_world) (events demo_world) (strftime_now demo_world)
    (TEMPLATE_PATH demo_world)
    (<["out/run.1/report.html" := IsADirectoryError "out/run.1/report.html"]> ∅).

(** A run directory whose report already has the extension [.html]. *)
Definition demo_world_html_report : world :=
  World
    (<["to.txt" := "a@b.c" +:+ nl]>
       (<["cc.txt" := "d@e.f"]>
          (<["run/report.html" :=
               "Title" +:+ nl +:+ "-----" +:+ nl +:+
               "t1 r1 testname 5 PASS b1 42" +:+ nl]>
             (<["head.txt" := "/path/x" +:+ nl +:+ "abc123" +:+ nl]>
                (<["/ci/email_template.css" :=
                     "<html>${body}</html>" +:+ nl]> ∅)))))
    [] "20260101T1200" "/ci/email_template.css" ∅.

(** ** Further notions used by the properties of the whole script *)

(** Every character of [s] is white space (a blank line). *)
Fixpoint all_space (s : string) : bool :=
  match s with
  | EmptyString => true
  | String c s' => isspace c && all_space s'
  end.

(** The row starts with the bucket marker. *)
Definition bucket_led (test : list string) : bool :=
  match test with
  | t :: _ => caseless_eq t "bucket"
  | [] => false
  end.

(** A control row switches the mode and is not rendered. *)
Definition is_control (test : list string) : bool :=
  bucket_led test || pass_led test.

(** The number of body rows opened in a list of fragments. *)
Definition count_rows (frags : list string) : nat :=
  length (List.filter (String.eqb tr_open) frags).

(** The body rows of the three tables together. *)
Definition emitted_rows (st : tables) : nat :=
  count_rows (stat1_table st) + count_rows (stat2_table st)
  + count_rows (test_table st).

(** The tokens of a row that read "pass" in some case. *)
Definition count_pass (test : list string) : nat :=
  length (List.filter (fun item => caseless_eq item "pass") test).

(** A normal-mode row as the renderer appends it. *)
Definition normal_row (test : list string) : list string :=
  [tr_open] ++ flat_map status_cells test ++ [tr_close].

Fixpoint id_chars (s : string) : bool :=
  match s with
  | EmptyString => true
  | String c s' => is_id_char c && id_chars s'
  end.

(** A placeholder name of [string.Template]. *)
Definition is_identifier (name : string) : bool :=
  match name with
  | EmptyString => false
  | String c rest => is_id_start c && id_chars rest
  end.

(** The computation changes nothing but the log of events. *)
Definition keeps_env {A} (m : io A) : Prop :=
  forall w,
    files (snd (m w)) = files w
    /\ strftime_now (snd (m w)) = strftime_now w
    /\ TEMPLATE_PATH (snd (m w)) = TEMPLATE_PATH w.

(** The banner [main] prints first. *)
Definition banner (to_email cc_email report_name head_name : string) : string :=
  join " " ["to: "; to_email; nl +:+ "cc: "; cc_email;
            nl +:+ "plain text report: "; report_name;
            nl +:+ "head:"; head_name] +:+ nl.

(** The line [collect_results] prints when it has read [n] records. *)
Definition total_line (n : nat) : string :=
  join " " ["Total "; str_of_nat n; "  tests"] +:+ nl.

(** * Properties *)

(** ** Strings *)

Lemma string_app_nil_r (s : string) : s +:+ "" = s.
Proof. induction s as [|c s IH]; simpl; [reflexivity | now rewrite IH]. Qed.

Lemma string_app_assoc (a b c : string) : (a +:+ b) +:+ c = a +:+ (b +:+ c).
Proof. induction a as [|x a IH]; simpl; [reflexivity | now rewrite IH]. Qed.

Lemma string_app_snoc (a : string) (c : ascii) (b : string) :
  (a +:+ String c "") +:+ b = a +:+ String c b.
Proof. now rewrite string_app_assoc. Qed.

(** ** split *)


Lemma split_from_nonempty (s cur tok : string) :
  In tok (split_from cur s) -> tok <> "".
Proof.
  revert cur. induction s as [|c s IH]; intros cur; simpl.
  - destruct cur; simpl; [tauto | intros [<- | []]; discriminate].
  - destruct (isspace c).
    + destruct cur; simpl; [apply IH |].
      intros [<- | H]; [discriminate | now apply IH in H].
    + apply IH.
Qed.

Lemma split_nonempty (s tok : string) : In tok (split s) -> tok <> "".
Proof. apply split_from_nonempty. Qed.

Lemma split_from_prefix (w cur s : string) :
  nonspace w = true -> split_from cur (w +:+ s) = split_from (cur +:+ w) s.
Proof.
  revert cur. induction w as [|c w IH]; intros cur Hw; simpl in *.
  - now rewrite string_app_nil_r.
  - apply andb_prop in Hw as [Hc Hw]. apply negb_true_iff in Hc.
    rewrite Hc, IH by assumption. now rewrite string_app_snoc.
Qed.

(** ** The angle-bracket escape *)


Lemma replace_app (old : ascii) (new a b : string) :
  replace old new (a +:+ b) = replace old new a +:+ replace old new b.
Proof.
  induction a as [|c a IH]; simpl; [reflexivity |].
  destruct (Ascii.eqb c old); rewrite IH; simpl;
    [now rewrite string_app_assoc | reflexivity].
Qed.

Lemma escape_app (a b : string) : escape (a +:+ b) = escape a +:+ escape b.
Proof. unfold escape. now rewrite !replace_app. Qed.

Lemma escape_cons (c : ascii) (s : string) :
  escape (String c s) = escape (String c "") +:+ escape s.
Proof. now rewrite <- escape_app. Qed.

Lemma escape_char_space (c : ascii) :
  isspace c = true -> escape (String c "") = String c "".
Proof.
  intros Hc. unfold escape. simpl.
  destruct (Ascii.eqb_spec c "<") as [-> | _]; [discriminate |]. simpl.
  destruct (Ascii.eqb_spec c ">") as [-> | _]; [discriminate | reflexivity].
Qed.

Lemma escape_char_nonspace (c : ascii) :
  isspace c = false -> nonspace (escape (String c "")) = true.
Proof.
  intros Hc. unfold escape. simpl.
  destruct (Ascii.eqb_spec c "<") as [-> | _]; [reflexivity |]. simpl.
  destruct (Ascii.eqb_spec c ">") as [-> | _]; [reflexivity |].
  simpl. now rewrite Hc.
Qed.

Lemma escape_char_cons (c : ascii) :
  exists c' s', escape (String c "") = String c' s'.
Proof.
  unfold escape. simpl.
  destruct (Ascii.eqb c "<"); simpl; [now eauto |].
  destruct (Ascii.eqb c ">"); simpl; now eauto.
Qed.

Lemma escape_nonempty (c : ascii) (s : string) :
  exists c' s', escape (String c s) = String c' s'.
Proof.
  rewrite escape_cons. destruct (escape_char_cons c) as (c' & s' & ->).
  simpl. now eauto.
Qed.

(** Escaping commutes with tokenisation: the tokens of the escaped line
    are the escaped tokens of the line. *)
Lemma split_from_escape (s cur : string) :
  split_from (escape cur) (escape s) = map escape (split_from cur s).
Proof.
  revert cur. induction s as [|c s IH]; intros cur.
  - simpl. destruct cur as [|a cur]; [reflexivity |].
    simpl. destruct (escape_nonempty a cur) as (c' & s' & ->). reflexivity.
  - rewrite escape_cons. simpl split_from at 2.
    destruct (isspace c) eqn:Hc.
    + rewrite (escape_char_space c Hc). simpl. rewrite Hc.
      destruct cur as [|a cur]; [apply (IH "") |].
      destruct (escape_nonempty a cur) as (c' & s' & E).
      simpl map. rewrite <- (IH ""). rewrite E. reflexivity.
    + rewrite split_from_prefix by now apply escape_char_nonspace.
      rewrite <- escape_app. apply IH.
Qed.

Lemma split_escape (line : string) :
  split (escape line) = map escape (split line).
Proof. apply (split_from_escape line ""). Qed.

(** ** collect_results *)




Lemma first_char_defined (line : string) :
  4 <= length (split line) ->
  exists tok c, index (split line) 0 = Ok tok /\ char_at tok 0 = Ok c
                /\ starts_with_dash line = Ascii.eqb c "-".
Proof.
  intros Hlen. unfold starts_with_dash.
  destruct (split line) as [|tok rest] eqn:E; [simpl in Hlen; lia |].
  assert (Htok : tok <> "") by (apply (split_nonempty line); rewrite E; now left).
  destruct tok as [|c tok]; [congruence |].
  exists (String c tok), c. repeat split.
Qed.

Lemma skip_line_spec (i : nat) (line : string) :
  skip_line i line = Ok ((i <=? 2) || negb (retained line)).
Proof.
  unfold skip_line, retained. destruct (i <=? 2); [reflexivity |].
  cbn [orb].
  destruct (Nat.ltb_spec (length (split line)) 4) as [Hlt | Hge].
  - apply Nat.leb_gt in Hlt. now rewrite Hlt.
  - destruct (first_char_defined line Hge) as (tok & c & Ht & Hc & Hd).
    apply Nat.leb_le in Hge. rewrite Hge, Hd. cbn [andb].
    unfold first_char_is_dash. rewrite Ht. cbn [rbind]. rewrite Hc.
    cbn [rbind]. now rewrite negb_involutive.
Qed.

Lemma collect_loop_spec (lines : list string) (i : nat)
    (acc : list (list string)) :
  collect_loop lines i acc
  = Ok (acc ++ map record_of (List.filter retained (skipn (2 - i) lines))).
Proof.
  revert i acc. induction lines as [|line rest IH]; intros i acc.
  - simpl. rewrite skipn_nil. simpl. now rewrite List.app_nil_r.
  - simpl collect_loop. rewrite skip_line_spec. simpl rbind.
    destruct (Nat.leb_spec (i + 1) 2) as [Hle | Hgt].
    + simpl. rewrite IH. replace (2 - i) with (S (2 - (i + 1))) by lia.
      reflexivity.
    + replace (2 - i) with 0 by lia. simpl skipn. simpl List.filter.
      simpl orb. destruct (retained line); simpl.
      * rewrite IH. replace (2 - (i + 1)) with 0 by lia. simpl.
        rewrite <- List.app_assoc. reflexivity.
      * rewrite IH. replace (2 - (i + 1)) with 0 by lia. reflexivity.
Qed.

Lemma collect_lines_spec (lines : list string) :
  collect_lines lines = Ok (map record_of (List.filter retained (skipn 2 lines))).
Proof. unfold collect_lines. now rewrite collect_loop_spec. Qed.

(** ** Case-insensitive comparison *)

Ltac ascii_cases c := destruct c as [[] [] [] [] [] [] [] []].

Lemma lower_char_letter (c : ascii) :
  is_lower_letter (lower_char c) = true -> fold_case c = lower_char c.
Proof. ascii_cases c; vm_compute; intros H; try reflexivity; discriminate H. Qed.

Lemma fold_case_letter (c : ascii) :
  is_lower_letter (fold_case c) = true -> lower_char c = fold_case c.
Proof. ascii_cases c; vm_compute; intros H; try reflexivity; discriminate H. Qed.

Lemma fold_case_lower_letter (c : ascii) :
  is_lower_letter c = true -> fold_case c = c.
Proof. ascii_cases c; vm_compute; intros H; try reflexivity; discriminate H. Qed.

Lemma fold_string_lower_word (w : string) :
  lower_word w = true -> fold_string w = w.
Proof.
  induction w as [|c w IH]; simpl; [reflexivity |].
  intros [Hc Hw]%andb_prop. now rewrite fold_case_lower_letter, IH.
Qed.

Lemma lower_iff_fold (item w : string) :
  lower_word w = true -> lower item = w <-> fold_string item = w.
Proof.
  revert w. induction item as [|c item IH]; intros [|x w]; simpl;
    try (intros _; split; congruence).
  intros [Hx Hw]%andb_prop. specialize (IH w Hw).
  split; intros [= Hc Hs]; f_equal; try tauto.
  - rewrite <- Hc in Hx. rewrite lower_char_letter; assumption.
  - rewrite <- Hc in Hx. rewrite fold_case_letter; assumption.
Qed.

(** The script's test [item.lower() == w] is equality up to case when
    [w] is a word of lower-case letters. *)
Lemma lower_eqb_caseless (item w : string) :
  lower_word w = true -> String.eqb (lower item) w = caseless_eq item w.
Proof.
  intros Hw. unfold caseless_eq. rewrite (fold_string_lower_word w Hw).
  destruct (String.eqb_spec (lower item) w) as [E | E];
    destruct (String.eqb_spec (fold_string item) w) as [F | F];
    try reflexivity; exfalso; apply (lower_iff_fold item w Hw) in E || 
    apply (lower_iff_fold item w Hw) in F; contradiction.
Qed.

Lemma caseless_pass_not_bucket (t : string) :
  caseless_eq t "pass" = true -> caseless_eq t "bucket" = false.
Proof.
  unfold caseless_eq. intros H%String.eqb_eq. now rewrite H.
Qed.

(** ** create_table *)

Lemma fold_summary_cell (test acc : list string) :
  fold_left summary_cell test acc = acc ++ map td_center test.
Proof.
  revert acc. induction test as [|item test IH]; intros acc; simpl.
  - now rewrite List.app_nil_r.
  - rewrite IH. unfold summary_cell. now rewrite <- List.app_assoc.
Qed.

Lemma status_cell_spec (acc : list string) (item : string) :
  status_cell acc item = acc ++ status_cells item.
Proof.
  unfold status_cell, status_cells.
  rewrite !lower_eqb_caseless by reflexivity.
  destruct (caseless_eq item "pass"); [now rewrite <- List.app_assoc |].
  destruct (caseless_eq item "fail"); reflexivity.
Qed.

Lemma fold_status_cell (test acc : list string) :
  fold_left status_cell test acc = acc ++ flat_map status_cells test.
Proof.
  revert acc. induction test as [|item test IH]; intros acc; simpl.
  - now rewrite List.app_nil_r.
  - rewrite IH, status_cell_spec. now rewrite <- List.app_assoc.
Qed.

Section TableRow.
Variable st : tables.
Variable t : string.
Variable rest : list string.

Lemma table_row_bucket :
  caseless_eq t "bucket" = true ->
  table_row st (t :: rest)
  = Ok (Tables true (stat2 st) (stat1_table st) (stat2_table st) (test_table st)).
Proof.
  intros H. unfold table_row, index. cbn [nth_error rbind].
  rewrite lower_eqb_caseless by reflexivity. now rewrite H.
Qed.

Lemma table_row_pass :
  caseless_eq t "pass" = true ->
  table_row st (t :: rest)
  = Ok (Tables false true (stat1_table st) (stat2_table st) (test_table st)).
Proof.
  intros H. unfold table_row, index. cbn [nth_error rbind].
  rewrite !lower_eqb_caseless by reflexivity.
  rewrite (caseless_pass_not_bucket t H). cbn [rbind]. now rewrite H.
Qed.

Hypothesis not_bucket : caseless_eq t "bucket" = false.
Hypothesis not_pass : caseless_eq t "pass" = false.

Lemma table_row_data :
  table_row st (t :: rest)
  = if stat1 st then
      let! c1 := index (t :: rest) 1 in
      Ok (Tables (stat1 st) (stat2 st)
            (stat1_table st ++
               [tr_open; td_center t; td_center c1;
                td_center (join " " (skipn 2 (t :: rest))); tr_close])
            (stat2_table st) (test_table st))
    else if stat2 st then
      Ok (Tables (stat1 st) false (stat1_table st)
            (stat2_table st ++ [tr_open] ++ map td_center (t :: rest) ++ [tr_close])
            (test_table st))
    else
      Ok (Tables (stat1 st) (stat2 st) (stat1_table st) (stat2_table st)
            (test_table st ++ [tr_open] ++ flat_map status_cells (t :: rest)
               ++ [tr_close])).
Proof.
  unfold table_row, index. cbn [nth_error rbind].
  rewrite !lower_eqb_caseless by reflexivity.
  rewrite not_bucket. cbn [rbind]. rewrite not_pass.
  destruct (stat1 st).
  - destruct rest as [|t1 rest']; [reflexivity |].
    unfold index. cbn [nth_error rbind].
    rewrite <- !List.app_assoc. reflexivity.
  - destruct (stat2 st).
    + rewrite fold_summary_cell, <- !List.app_assoc. reflexivity.
    + rewrite fold_status_cell, <- !List.app_assoc. reflexivity.
Qed.
End TableRow.

Lemma table_rows_app (rows1 rows2 : list (list string)) (st : tables) :
  table_rows (rows1 ++ rows2) st
  = let! st1 := table_rows rows1 st in table_rows rows2 st1.
Proof.
  revert st. induction rows1 as [|row rows1 IH]; intros st; simpl;
    [reflexivity |].
  destruct (table_row st row); simpl; [apply IH | reflexivity].
Qed.

(** While the bucket flag is on and no summary marker arrives, nothing
    but the bucket table changes. *)
Lemma bucket_mode_stays (rows : list (list string)) :
  forall st st',
    stat1 st = true ->
    Forall (fun row => pass_led row = false) rows ->
    table_rows rows st = Ok st' ->
    stat1 st' = true /\ stat2 st' = stat2 st
    /\ stat2_table st' = stat2_table st /\ test_table st' = test_table st.
Proof.
  induction rows as [|row rows IH]; intros st st' H1 Hrows Hrun.
  - simpl in Hrun. injection Hrun as <-. repeat split; assumption.
  - inversion Hrows as [|? ? Hrow Hrest]; subst. simpl in Hrun.
    destruct row as [|t rest]; [discriminate Hrun |]. simpl in Hrow.
    destruct (caseless_eq t "bucket") eqn:Hb.
    + rewrite (table_row_bucket st t rest Hb) in Hrun. simpl in Hrun.
      apply IH in Hrun; [exact Hrun | reflexivity | assumption].
    + rewrite (table_row_data st t rest Hb Hrow), H1 in Hrun.
      destruct (index (t :: rest) 1) as [c1 | e]; [| discriminate Hrun].
      simpl in Hrun. apply IH in Hrun; [| reflexivity | assumption].
      simpl in Hrun. exact Hrun.
Qed.

(** ** Files and console *)

Lemma bind_ok {A B} (m : io A) (k : A -> io B) (w w' : world) (b : B) :
  bind m k w = (Ok b, w') ->
  exists a w1, m w = (Ok a, w1) /\ k a w1 = (Ok b, w').
Proof.
  unfold bind. destruct (m w) as [[a | e] w1]; [eauto | discriminate].
Qed.

Lemma keeps_ret {A} (a : A) : keeps_files (ret a).
Proof. intros w. reflexivity. Qed.

Lemma keeps_raise {A} (e : exn) : keeps_files (@raise A e).
Proof. intros w. reflexivity. Qed.

Lemma keeps_lift {A} (r : result A) : keeps_files (lift r).
Proof. intros w. reflexivity. Qed.

Lemma keeps_print (args : list string) : keeps_files (print args).
Proof. intros w. reflexivity. Qed.

Lemma keeps_strftime : keeps_files strftime.
Proof. intros w. reflexivity. Qed.

Lemma keeps_template_path : keeps_files template_path.
Proof. intros w. reflexivity. Qed.

Lemma keeps_open_read (path : string) : keeps_files (open_read path).
Proof. intros w. unfold open_read. destruct (files w !! path); reflexivity. Qed.

Lemma keeps_bind {A B} (m : io A) (k : A -> io B) :
  keeps_files m -> (forall a, keeps_files (k a)) -> keeps_files (bind m k).
Proof.
  intros Hm Hk w. unfold bind. specialize (Hm w).
  destruct (m w) as [[a | e] w1]; simpl in Hm; [| exact Hm].
  now rewrite Hk.
Qed.

Create HintDb keeps.
#[local] Hint Resolve keeps_ret keeps_raise keeps_lift keeps_print
  keeps_strftime keeps_template_path keeps_open_read keeps_bind : keeps.

Lemma keeps_read_file (fname : string) (delim : option ascii) :
  keeps_files (read_file fname delim).
Proof. unfold read_file. auto with keeps. Qed.

Lemma keeps_collect_results (testsfile : string) :
  keeps_files (collect_results testsfile).
Proof. unfold collect_results. auto 10 with keeps. Qed.

Lemma keeps_collect_head (headfile : string) :
  keeps_files (collect_head headfile).
Proof. unfold collect_head. auto with keeps. Qed.

Lemma keeps_create_message (test_list head_info : list (list string)) :
  keeps_files (create_message test_list head_info).
Proof.
  unfold create_message.
  repeat (apply keeps_bind; [auto using keeps_read_file with keeps | intros ?]).
  auto with keeps.
Qed.

Lemma keeps_create_email (to_file cc_file html_report : string) :
  keeps_files (create_email to_file cc_file html_report).
Proof. unfold create_email. auto 10 with keeps. Qed.

#[local] Hint Resolve keeps_read_file keeps_collect_results keeps_collect_head
  keeps_create_message keeps_create_email : keeps.

Lemma keeps_files_run {A} (m : io A) (w w' : world) (r : result A) :
  keeps_files m -> m w = (r, w') -> files w' = files w.
Proof. intros H E. specialize (H w). now rewrite E in H. Qed.

Lemma collect_results_run (testsfile text : string) (w : world) :
  files w !! testsfile = Some text ->
  exists w',
    collect_results testsfile w
    = (Ok (map record_of (List.filter retained (skipn 2 (text_lines text)))), w')
    /\ files w' = files w.
Proof.
  intros Hf. unfold collect_results, bind, open_read, lift. rewrite Hf.
  rewrite collect_lines_spec. simpl. eexists. split; reflexivity.
Qed.

Lemma collect_head_lines_spec (lines : list string) :
  collect_head_lines lines = map split lines.
Proof.
  unfold collect_head_lines.
  enough (H : forall acc,
             fold_left (fun head_info line => head_info ++ [split line]) lines acc
             = acc ++ map split lines) by apply (H []).
  induction lines as [|line lines IH]; intros acc; simpl.
  - now rewrite List.app_nil_r.
  - rewrite IH. now rewrite <- List.app_assoc.
Qed.

Lemma collect_head_run (headfile text : string) (w : world) :
  files w !! headfile = Some text ->
  exists w',
    collect_head headfile w = (Ok (map split (text_lines text)), w')
    /\ files w' = files w.
Proof.
  intros Hf. unfold collect_head, bind, open_read, ret. rewrite Hf.
  rewrite collect_head_lines_spec. eexists. split; reflexivity.
Qed.

Lemma create_head_short (head_info : list (list string)) :
  length head_info < 2 -> create_head head_info = Raise IndexError.
Proof.
  intros H. unfold create_head, index.
  destruct head_info as [|l0 [|l1 rest]]; simpl in *; [reflexivity | | lia].
  destruct l0; reflexivity.
Qed.

(** ** os.path.splitext *)

Lemma take_drop_str (n : nat) (s : string) : take_str n s +:+ drop_str n s = s.
Proof.
  revert s. induction n as [|n IH]; intros [|c s]; simpl; try reflexivity.
  now rewrite IH.
Qed.

Lemma drop_str_add (a b : nat) (s : string) :
  drop_str (a + b) s = drop_str b (drop_str a s).
Proof.
  revert s. induction a as [|a IH]; intros s; simpl; [reflexivity |].
  destruct s as [|c s]; [now destruct b | apply IH].
Qed.

Lemma occurs_drop_str (c : ascii) (n : nat) (s : string) :
  occurs c s = false -> occurs c (drop_str n s) = false.
Proof.
  revert s. induction n as [|n IH]; intros [|x s]; simpl; try easy.
  intros [_ H]%orb_false_elim. now apply IH.
Qed.

(** [rfind_from] either keeps [last] because [c] does not occur, or
    returns the index of an occurrence after which [c] occurs no more. *)
Lemma rfind_from_spec (c : ascii) (s : string) :
  forall i last : Z,
    (last < i)%Z ->
    (rfind_from c s i last = last /\ occurs c s = false)
    \/ (exists e,
          (i <= rfind_from c s i last)%Z
          /\ drop_str (Z.to_nat (rfind_from c s i last - i)) s = String c e
          /\ occurs c e = false).
Proof.
  induction s as [|x s IH]; intros i last Hlt; simpl; [now left |].
  destruct (Ascii.eqb_spec x c) as [-> | Hne].
  - destruct (IH (i + 1)%Z i ltac:(lia)) as [[Hr Ho] | (e & Hi & Hd & He)].
    + right. exists s. rewrite Hr, Z.sub_diag. simpl. repeat split; [lia | assumption].
    + right. exists e. split; [lia |]. split; [| assumption].
      replace (Z.to_nat (rfind_from c s (i + 1) i - i))
        with (S (Z.to_nat (rfind_from c s (i + 1) i - (i + 1)))) by lia.
      exact Hd.
  - destruct (IH (i + 1)%Z last ltac:(lia)) as [[Hr Ho] | (e & Hi & Hd & He)].
    + left. split; assumption.
    + right. exists e. split; [lia |]. split; [| assumption].
      replace (Z.to_nat (rfind_from c s (i + 1) last - i))
        with (S (Z.to_nat (rfind_from c s (i + 1) last - (i + 1)))) by lia.
      exact Hd.
Qed.

Lemma rfind_spec (c : ascii) (s : string) :
  (rfind c s = (-1)%Z /\ occurs c s = false)
  \/ (exists e,
        (0 <= rfind c s)%Z
        /\ drop_str (Z.to_nat (rfind c s)) s = String c e
        /\ occurs c e = false).
Proof.
  unfold rfind.
  destruct (rfind_from_spec c s 0 (-1) ltac:(lia)) as [H | (e & Hi & Hd & He)];
    [now left |].
  right. exists e. now rewrite Z.sub_0_r in Hd.
Qed.

(** Beyond the last occurrence of [c] there is none. *)
Lemma occurs_after_rfind (c : ascii) (s : string) (d : nat) :
  (rfind c s < Z.of_nat d)%Z -> occurs c (drop_str d s) = false.
Proof.
  intros Hlt.
  destruct (rfind_spec c s) as [[_ Ho] | (e & Hi & Hd & He)].
  - now apply occurs_drop_str.
  - replace d with (Z.to_nat (rfind c s) + S (d - Z.to_nat (rfind c s) - 1))
      by lia.
    rewrite drop_str_add, Hd. simpl. now apply occurs_drop_str.
Qed.

Lemma skip_dots_cases (p : string) (n filenameIndex dotIndex : nat) :
  skip_dots p filenameIndex n dotIndex = (p, "")
  \/ skip_dots p filenameIndex n dotIndex
     = (take_str dotIndex p, drop_str dotIndex p).
Proof.
  revert filenameIndex. induction n as [|n IH]; intros f; simpl; [now left |].
  destruct (negb _); [now right | apply IH].
Qed.

Lemma splitext_cases (p : string) :
  splitext p = (p, "")
  \/ ((rfind "/" p < rfind "." p)%Z
      /\ splitext p = (take_str (Z.to_nat (rfind "." p)) p,
                       drop_str (Z.to_nat (rfind "." p)) p)).
Proof.
  unfold splitext. destruct (Z.ltb_spec (rfind "/" p) (rfind "." p)) as [H | H];
    [| now left].
  destruct (skip_dots_cases p (Z.to_nat (rfind "." p - (rfind "/" p + 1)))
              (Z.to_nat (rfind "/" p + 1)) (Z.to_nat (rfind "." p)))
    as [E | E]; rewrite E; [now left | now right].
Qed.

Lemma rfind_lower_bound (c : ascii) (s : string) : (-1 <= rfind c s)%Z.
Proof. destruct (rfind_spec c s) as [[-> _] | (e & H & _)]; lia. Qed.

Lemma splitext_join (p : string) : fst (splitext p) +:+ snd (splitext p) = p.
Proof.
  destruct (splitext_cases p) as [-> | [_ ->]]; simpl.
  - apply string_app_nil_r.
  - apply take_drop_str.
Qed.

Lemma splitext_extension (p : string) : is_extension (snd (splitext p)).
Proof.
  destruct (splitext_cases p) as [-> | [Hlt ->]]; simpl; [now left |].
  right. pose proof (rfind_lower_bound "/" p) as Hsep.
  destruct (rfind_spec "." p) as [[Hd _] | (e & Hi & Hd & He)]; [lia |].
  exists e. rewrite Hd. repeat split; [assumption |].
  assert (Ho : occurs "/" (drop_str (Z.to_nat (rfind "." p)) p) = false)
    by (apply occurs_after_rfind; lia).
  rewrite Hd in Ho. simpl in Ho. exact Ho.
Qed.

(** *** The exact cut *)

Lemma occurs_app (c : ascii) (a b : string) :
  occurs c (a +:+ b) = occurs c a || occurs c b.
Proof.
  induction a as [|x a IH]; simpl; [reflexivity |].
  now rewrite IH, orb_assoc.
Qed.

Lemma rfind_absent (c : ascii) (s : string) :
  occurs c s = false -> rfind c s = (-1)%Z.
Proof.
  intros H. destruct (rfind_spec c s) as [[E _] | (e & _ & Hd & _)]; [exact E |].
  pose proof (occurs_drop_str c (Z.to_nat (rfind c s)) s H) as Ho.
  rewrite Hd in Ho. simpl in Ho. now rewrite Ascii.eqb_refl in Ho.
Qed.

Lemma str_length_app (a b : string) :
  String.length (a +:+ b) = String.length a + String.length b.
Proof. induction a as [|c a IH]; simpl; [reflexivity | now rewrite IH]. Qed.

Lemma drop_str_app (a b : string) (j : nat) :
  drop_str (String.length a + j) (a +:+ b) = drop_str j b.
Proof. induction a as [|c a IH]; simpl; [reflexivity | exact IH]. Qed.

Lemma take_str_app (a b : string) : take_str (String.length a) (a +:+ b) = a.
Proof. induction a as [|c a IH]; simpl; [now destruct b | now rewrite IH]. Qed.

Lemma rfind_from_app (c : ascii) (a b : string) :
  forall i last,
    rfind_from c (a +:+ b) i last
    = rfind_from c b (i + Z.of_nat (String.length a)) (rfind_from c a i last).
Proof.
  induction a as [|x a IH]; intros i last; simpl.
  - now rewrite Z.add_0_r.
  - rewrite IH. f_equal. lia.
Qed.

Lemma rfind_from_absent (c : ascii) (b : string) :
  forall i last, occurs c b = false -> rfind_from c b i last = last.
Proof.
  induction b as [|x b IH]; intros i last; simpl; [reflexivity |].
  intros [Hx Hb]%orb_false_elim. now rewrite Hx, IH.
Qed.

Lemma rfind_from_bound (c : ascii) (a : string) :
  forall i last,
    (last < i)%Z -> (rfind_from c a i last < i + Z.of_nat (String.length a))%Z.
Proof.
  induction a as [|x a IH]; intros i last H; simpl String.length; simpl rfind_from.
  - lia.
  - specialize (IH (i + 1)%Z (if Ascii.eqb x c then i else last)).
    destruct (Ascii.eqb x c); lia.
Qed.

Lemma rfind_app_absent (c : ascii) (a b : string) :
  occurs c b = false -> rfind c (a +:+ b) = rfind c a.
Proof. intros H. unfold rfind. now rewrite rfind_from_app, rfind_from_absent. Qed.

Lemma rfind_last (c : ascii) (a b : string) :
  occurs c b = false -> rfind c (a +:+ String c b) = Z.of_nat (String.length a).
Proof.
  intros H. unfold rfind. rewrite rfind_from_app. simpl.
  rewrite Ascii.eqb_refl, rfind_from_absent by assumption. lia.
Qed.

Lemma rfind_lt_length (c : ascii) (a : string) :
  (rfind c a < Z.of_nat (String.length a))%Z.
Proof. unfold rfind. pose proof (rfind_from_bound c a 0 (-1)). lia. Qed.

Lemma skip_dots_found (p : string) (dotIndex k : nat) :
  forall n filenameIndex,
    filenameIndex <= k < filenameIndex + n ->
    take_str 1 (drop_str k p) <> "." ->
    skip_dots p filenameIndex n dotIndex
    = (take_str dotIndex p, drop_str dotIndex p).
Proof.
  induction n as [|n IH]; intros f Hk Hne; [lia |]. cbn [skip_dots].
  destruct (String.eqb_spec (take_str 1 (drop_str f p)) ".") as [E | E];
    [| reflexivity].
  cbn [negb]. apply IH; [| assumption].
  assert (k <> f) by (intros ->; contradiction). lia.
Qed.

Lemma skip_dots_none (p : string) (dotIndex : nat) :
  forall n filenameIndex,
    (forall k, filenameIndex <= k < filenameIndex + n ->
               take_str 1 (drop_str k p) = ".") ->
    skip_dots p filenameIndex n dotIndex = (p, "").
Proof.
  induction n as [|n IH]; intros f H; [reflexivity |]. cbn [skip_dots].
  rewrite (H f) by lia. cbn [String.eqb negb].
  change (String.eqb "." ".") with true. cbn [negb].
  apply IH. intros k Hk. apply H. lia.
Qed.

Lemma all_dots_false (stem : string) :
  all_dots stem = false ->
  exists j, j < String.length stem
            /\ forall s, take_str 1 (drop_str j (stem +:+ s)) <> ".".
Proof.
  induction stem as [|x stem IH]; simpl; [discriminate |].
  destruct (Ascii.eqb_spec x ".") as [-> | Hx]; simpl.
  - intros (j & Hj & H)%IH. exists (S j). split; [lia | exact H].
  - intros _. exists 0. split; [lia |]. intros s. simpl.
    destruct (stem +:+ s); intros [= E]; contradiction.
Qed.

Lemma all_dots_true (dots : string) :
  all_dots dots = true ->
  forall j s, j < String.length dots ->
              take_str 1 (drop_str j (dots +:+ s)) = ".".
Proof.
  induction dots as [|x dots IH]; simpl; intros H j s Hj; [lia |].
  apply andb_prop in H as [->%Ascii.eqb_eq H].
  destruct j as [|j]; simpl.
  - now destruct (dots +:+ s).
  - apply IH; [assumption | lia].
Qed.

Lemma all_dots_no_slash (dots : string) :
  all_dots dots = true -> occurs "/" dots = false.
Proof.
  induction dots as [|x dots IH]; simpl; [reflexivity |].
  intros [->%Ascii.eqb_eq H]%andb_prop. now apply IH.
Qed.

Lemma all_dots_snoc (dots : string) :
  all_dots dots = true -> String "." dots = dots +:+ ".".
Proof.
  induction dots as [|x dots IH]; simpl; [reflexivity |].
  intros [->%Ascii.eqb_eq H]%andb_prop. now rewrite <- IH.
Qed.

(** A path with an extension is cut at its last dot. *)
Lemma splitext_with_extension (p dir stem e : string) :
  with_extension p dir stem e ->
  splitext p = (dir +:+ stem, String "." e).
Proof.
  intros (-> & Hs & Hd & He & Hse).
  assert (Hdot : rfind "." ((dir +:+ stem) +:+ String "." e)
                 = Z.of_nat (String.length (dir +:+ stem)))
    by now apply rfind_last.
  assert (Hsep : rfind "/" ((dir +:+ stem) +:+ String "." e) = rfind "/" dir).
  { rewrite string_app_assoc. apply rfind_app_absent.
    rewrite occurs_app, Hs. simpl. exact Hse. }
  pose proof (rfind_lt_length "/" dir) as Hlt.
  pose proof (rfind_lower_bound "/" dir) as Hge.
  rewrite str_length_app in Hdot.
  unfold splitext. rewrite Hdot, Hsep.
  destruct (Z.ltb_spec (rfind "/" dir)
              (Z.of_nat (String.length dir + String.length stem))); [| lia].
  destruct (all_dots_false stem Hd) as (j & Hj & Hne).
  rewrite (skip_dots_found _ _ (String.length dir + j)).
  - rewrite Nat2Z.id, <- str_length_app.
    rewrite take_str_app.
    rewrite <- (Nat.add_0_r (String.length (dir +:+ stem))), drop_str_app.
    reflexivity.
  - lia.
  - rewrite string_app_assoc, drop_str_app. apply Hne.
Qed.

(** A path without extension is returned whole. *)
Lemma splitext_without_extension (p dir dots rest : string) :
  without_extension p dir dots rest -> splitext p = (p, "").
Proof.
  intros (-> & Hdir & Hdots & Hr & Hrs).
  assert (Htail : occurs "/" (dots +:+ rest) = false)
    by now rewrite occurs_app, (all_dots_no_slash dots Hdots).
  assert (Hsep : rfind "/" (dir +:+ dots +:+ rest)
                 = (Z.of_nat (String.length dir) - 1)%Z).
  { destruct Hdir as [-> | [d ->]].
    - simpl. now apply rfind_absent.
    - rewrite string_app_assoc. simpl String.append.
      rewrite rfind_last by assumption. rewrite str_length_app. simpl. lia. }
  unfold splitext. rewrite Hsep.
  destruct dots as [|x dots1].
  - assert (Hdot : (rfind "." (dir +:+ "" +:+ rest)
                    <= Z.of_nat (String.length dir) - 1)%Z).
    { simpl. rewrite rfind_app_absent by assumption.
      destruct Hdir as [-> | [d ->]]; [reflexivity |].
      rewrite rfind_app_absent by reflexivity. rewrite str_length_app. simpl.
      pose proof (rfind_lt_length "." d). lia. }
    destruct (Z.ltb_spec (Z.of_nat (String.length dir) - 1)
                (rfind "." (dir +:+ "" +:+ rest))); [lia | reflexivity].
  - simpl in Hdots. apply andb_prop in Hdots as [->%Ascii.eqb_eq Hdots1].
    assert (Hdot : rfind "." (dir +:+ String "." dots1 +:+ rest)
                   = Z.of_nat (String.length dir + String.length dots1)).
    { rewrite (all_dots_snoc dots1 Hdots1).
      rewrite (string_app_assoc dots1 "." rest), <- string_app_assoc.
      simpl String.append. rewrite rfind_last by assumption.
      now rewrite str_length_app. }
    rewrite Hdot.
    destruct (Z.ltb_spec (Z.of_nat (String.length dir) - 1)
                (Z.of_nat (String.length dir + String.length dots1))); [| lia].
    apply skip_dots_none. intros k Hk.
    replace k with (String.length dir + (k - String.length dir)) by lia.
    rewrite drop_str_app.
    apply (all_dots_true (String "." dots1)).
    + simpl. now rewrite Hdots1.
    + simpl. lia.
Qed.

(** Every path has one of the two shapes. *)
Lemma path_shape (p : string) :
  (exists dir stem e, with_extension p dir stem e)
  \/ (exists dir dots rest, without_extension p dir dots rest).
Proof.
  induction p as [|c p IH].
  - right. exists "", "", "". repeat split. now left.
  - destruct IH as [(dir & stem & e & -> & H) | (dir & dots & rest & -> & Hdir & Hdots & Hr & Hrs)].
    + left. exists (String c dir), stem, e. split; [reflexivity | exact H].
    + destruct Hdir as [-> | [d ->]].
      * simpl String.append.
        destruct (Ascii.eqb_spec c "/") as [-> | Hslash].
        { right. exists "/", dots, rest.
          split; [reflexivity |]. split; [right; now exists "" |].
          split; [exact Hdots | now split]. }
        destruct (Ascii.eqb_spec c ".") as [-> | Hdot].
        { right. exists "", (String "." dots), rest.
          split; [reflexivity |]. split; [now left |].
          split; [exact Hdots | now split]. }
        apply Ascii.eqb_neq in Hslash, Hdot.
        destruct dots as [|x dots1].
        { right. exists "", "", (String c rest).
          split; [reflexivity |]. split; [now left |]. split; [reflexivity |].
          simpl. now rewrite Hdot, Hslash. }
        simpl in Hdots. apply andb_prop in Hdots as [->%Ascii.eqb_eq Hdots1].
        left. exists "", (String c dots1), rest.
        assert (E : String "." dots1 +:+ rest = dots1 +:+ String "." rest)
          by now rewrite (all_dots_snoc dots1 Hdots1), string_app_assoc.
        split; [simpl; now rewrite <- E |].
        split; [simpl; rewrite Hslash; now apply all_dots_no_slash |].
        split; [simpl; now rewrite Hdot | now split].
      * right. exists (String c d +:+ "/"), dots, rest.
        repeat split; try assumption. right. now exists (String c d).
Qed.

(** ** main *)

Lemma main_files (to_email cc_email report_name head_name : string)
    (w w' : world) :
  main to_email cc_email report_name head_name w = (Ok tt, w') ->
  exists html_report,
    files w' = <[html_path report_name := html_report]> (files w).
Proof.
  unfold main. intros H.
  apply bind_ok in H as (? & w1 & E1 & H).
  apply bind_ok in H as (test_list & w2 & E2 & H).
  apply bind_ok in H as (head_info & w3 & E3 & H).
  apply bind_ok in H as (html_report & w4 & E4 & H).
  apply bind_ok in H as (? & w5 & E5 & H).
  exists html_report. unfold write_file in H.
  destruct (unwritable w5 !! html_path report_name); [discriminate H |].
  injection H as <-. simpl.
  apply keeps_files_run in E1, E2, E3, E4, E5; auto with keeps.
  congruence.
Qed.

Lemma create_message_short (test_list head_info : list (list string))
    (w : world) :
  length head_info < 2 ->
  create_message test_list head_info w = (Raise IndexError, w).
Proof.
  intros H. unfold create_message, bind, strftime, lift.
  now rewrite (create_head_short head_info H).
Qed.

Lemma retained_false_iff (line : string) :
  retained line = false
  <-> length (split line) < 4
      \/ exists c tok rest, split line = String c tok :: rest /\ c = "-"%char.
Proof.
  unfold retained, starts_with_dash. split.
  - intros [H | H]%andb_false_iff.
    + left. now apply Nat.leb_gt.
    + right. apply negb_false_iff in H.
      destruct (split line) as [|[|c tok] rest]; try discriminate H.
      exists c, tok, rest. split; [reflexivity | now apply Ascii.eqb_eq].
  - intros [H | (c & tok & rest & E & ->)]; apply andb_false_iff.
    + left. now apply Nat.leb_gt.
    + right. now rewrite E.
Qed.

Lemma retained_length (line : string) :
  retained line = true -> 4 <= length (split line).
Proof. unfold retained. intros [H _]%andb_prop. now apply Nat.leb_le. Qed.

Lemma nth_error_skipn_In {A} (l : list A) (n : nat) (x : A) :
  In x (skipn n l) <-> exists k, n <= k /\ nth_error l k = Some x.
Proof.
  split.
  - intros [j Hj]%In_nth_error. exists (n + j). split; [lia |].
    now rewrite <- nth_error_skipn.
  - intros (k & Hk & Hx). apply (nth_error_In _ (k - n)).
    rewrite nth_error_skipn. now replace (n + (k - n)) with k by lia.
Qed.

(** * The claims *)

(** C2. The result parser drops exactly the first two lines, the lines
    with fewer than four white-space separated tokens, and the lines
    whose first token starts with a dash: its output is, in order, the
    records of the remaining lines, and a record is in the output only
    by way of a line at a position that is not dropped. *)
Theorem collect_results_drops_exactly (lines : list string) :
  collect_lines lines
  = Ok (map record_of (List.filter retained (skipn 2 lines)))
  /\ (forall k line, dropped k line <-> k < 2 \/ retained line = false)
  /\ (forall r,
        In r (map record_of (List.filter retained (skipn 2 lines)))
        <-> exists k line,
              nth_error lines k = Some line /\ ~ dropped k line
              /\ r = record_of line).
Proof.
  split; [apply collect_lines_spec |]. 
  assert (Hd : forall k line, dropped k line <-> k < 2 \/ retained line = false).
  { intros k line. unfold dropped. rewrite retained_false_iff. tauto. }
  split; [exact Hd |]. intros r. rewrite List.in_map_iff. split.
  - intros (line & <- & [Hin Hret]%List.filter_In).
    apply nth_error_skipn_In in Hin as (k & Hk & Hnth).
    exists k, line. repeat split; [assumption |]. rewrite Hd.
    intros [? | ?]; [lia | congruence].
  - intros (k & line & Hnth & Hnd & ->). exists line. split; [reflexivity |].
    rewrite Hd in Hnd. apply List.filter_In. split.
    + apply nth_error_skipn_In. exists k. split; [lia | assumption].
    + destruct (retained line); [reflexivity | tauto].
Qed.

(** C3. Every retained line has each [<] replaced by [&lt] and each [>]
    by [&gt] (no semicolon) before it is split: the record is the list
    of the line's tokens, each escaped; a retained line with the token
    [<x>] yields a record with the token [&ltx&gt]. *)
Theorem collect_results_escapes (lines : list string) :
  collect_lines lines
  = Ok (map (fun line => map escape (split line))
          (List.filter retained (skipn 2 lines)))
  /\ (forall line,
        split (replace ">" "&gt" (replace "<" "&lt" line))
        = map escape (split line))
  /\ escape "<x>" = "&ltx&gt"
  /\ collect_lines ["Title"; "-----"; "t1 r1 <x> 5 PASS b1 42" +:+ nl]
     = Ok [["t1"; "r1"; "&ltx&gt"; "5"; "PASS"; "b1"; "42"]].
Proof.
  split; [| split; [| split]]; try reflexivity.
  - rewrite collect_lines_spec. f_equal. apply map_ext. intros line.
    apply split_escape.
  - intros line. apply split_escape.
Qed.

(** C8. The test on the first character of the first token is reached
    only for a line with at least four tokens, and there both indexings
    succeed: the filter never raises and the parser returns for every
    input.  Without the guard the same test raises on a blank line. *)
Theorem first_char_check_safe (lines : list string) (i : nat) (line : string) :
  (exists recs, collect_lines lines = Ok recs)
  /\ (exists skip, skip_line i line = Ok skip)
  /\ (length (split line) < 4 -> skip_line i line = Ok true)
  /\ (2 < i -> 4 <= length (split line) ->
      exists tok c,
        index (split line) 0 = Ok tok /\ char_at tok 0 = Ok c
        /\ first_char_is_dash line = Ok (Ascii.eqb c "-")
        /\ skip_line i line = first_char_is_dash line)
  /\ first_char_is_dash "" = Raise IndexError.
Proof.
  split; [eexists; apply collect_lines_spec |].
  split; [eexists; apply skip_line_spec |].
  split; [| split; [| reflexivity]].
  - intros H. unfold skip_line. apply Nat.ltb_lt in H. rewrite H.
    now destruct (i <=? 2).
  - intros Hi Hlen.
    destruct (first_char_defined line Hlen) as (tok & c & Ht & Hc & _).
    exists tok, c. repeat split; try assumption.
    + unfold first_char_is_dash. rewrite Ht. cbn [rbind]. now rewrite Hc.
    + unfold skip_line. apply Nat.leb_gt in Hi. rewrite Hi.
      apply Nat.ltb_ge in Hlen. now rewrite Hlen.
Qed.

Lemma first_char_check_safe_witness :
  exists tok c,
    index (split "t1 r1 name 5") 0 = Ok tok /\ char_at tok 0 = Ok c
    /\ first_char_is_dash "t1 r1 name 5" = Ok (Ascii.eqb c "-")
    /\ skip_line 3 "t1 r1 name 5" = first_char_is_dash "t1 r1 name 5".
Proof.
  apply (first_char_check_safe [] 3 "t1 r1 name 5"); vm_compute; lia.
Defined.

(** C9. Every record of the parser's output has at least four tokens:
    the replacements hold no white space, so a line and its escaped
    form have the same number of tokens. *)
Theorem records_have_four_tokens (lines : list string) :
  exists recs,
    collect_lines lines = Ok recs
    /\ Forall (fun r => 4 <= length r) recs
    /\ (forall line, length (split (escape line)) = length (split line))
    /\ nonspace "&lt" = true /\ nonspace "&gt" = true.
Proof.
  eexists. split; [apply collect_lines_spec |].
  assert (Hlen : forall line, length (split (escape line)) = length (split line))
    by (intros line; now rewrite split_escape, length_map).
  split; [| split; [exact Hlen | split; reflexivity]].
  apply List.Forall_forall. intros r (line & <- & [_ Hret]%List.filter_In)%List.in_map_iff.
  unfold record_of. rewrite Hlen. now apply retained_length.
Qed.

(** C1, as the specification words it, fails on the scenario's last
    row: that row has seven tokens, six of them other than PASS, so the
    green cell and the empty cell come with six plain cells, not five. *)
Lemma sample_normal_row_not_five_plain : ~ sample_rendering 5.
Proof.
  intros (st & Hrun & _ & _ & before & after & Hrows & Hlen).
  assert (H8 : map (@length string) (body_rows (test_table st)) = [8]).
  { vm_compute in Hrun. injection Hrun as <-. vm_compute. reflexivity. }
  rewrite Hrows in H8. cbn [map] in H8.
  rewrite !length_app, !length_map in H8. simpl in H8.
  injection H8 as H8. lia.
Qed.

(** C1 (amended). A row led by "bucket" (any case) turns bucket mode on
    and emits nothing; a row led by "pass" (any case) turns summary mode
    on, bucket mode off, and emits nothing; in bucket mode any other
    row of at least two tokens becomes a bucket row (first token, second
    token, the rest joined by spaces); with bucket mode off and summary
    mode on, any other row becomes the summary row and summary mode is
    cleared.  On the scenario stream the renderer produces one bucket
    row b1, 3, myBucket, one summary row of five cells and one normal
    row: the green PASS cell and the empty cell with six plain cells,
    four before and two after. *)
Theorem create_table_mode_switch (st : tables) (t : string) (rest : list string) :
  (caseless_eq t "bucket" = true ->
   table_row st (t :: rest)
   = Ok (Tables true (stat2 st) (stat1_table st) (stat2_table st) (test_table st)))
  /\ (caseless_eq t "pass" = true ->
      table_row st (t :: rest)
      = Ok (Tables false true (stat1_table st) (stat2_table st) (test_table st)))
  /\ (caseless_eq t "bucket" = false -> caseless_eq t "pass" = false ->
      stat1 st = true ->
      forall t1 rest', rest = t1 :: rest' ->
        table_row st (t :: rest)
        = Ok (Tables true (stat2 st)
                (stat1_table st ++
                   [tr_open; td_center t; td_center t1;
                    td_center (join " " rest'); tr_close])
                (stat2_table st) (test_table st)))
  /\ (caseless_eq t "bucket" = false -> caseless_eq t "pass" = false ->
      stat1 st = false -> stat2 st = true ->
      table_row st (t :: rest)
      = Ok (Tables false false (stat1_table st)
              (stat2_table st ++ [tr_open] ++ map td_center (t :: rest) ++ [tr_close])
              (test_table st)))
  /\ sample_rendering 6
  /\ (exists st',
        table_rows sample tables_init = Ok st'
        /\ body_rows (test_table st')
           = [[td_left "t1"; td_left "r1"; td_left "name"; td_left "5";
               td_pass; td_left ""; td_left "b1"; td_left "42"]]).
Proof.
  split; [apply table_row_bucket |].
  split; [apply table_row_pass |].
  split; [| split; [| split]].
  - intros Hb Hp H1 t1 rest' ->.
    rewrite (table_row_data st t (t1 :: rest') Hb Hp), H1. reflexivity.
  - intros Hb Hp H1 H2.
    rewrite (table_row_data st t rest Hb Hp), H1, H2. reflexivity.
  - eexists. split; [vm_compute; reflexivity |].
    split; [vm_compute; reflexivity |].
    split.
    + exists ["10"; "2"; "0"; "12"; "83%"]. split; vm_compute; reflexivity.
    + exists ["t1"; "r1"; "name"; "5"], ["b1"; "42"].
      split; vm_compute; reflexivity.
  - eexists. split; vm_compute; reflexivity.
Qed.

Lemma create_table_mode_switch_witness :
  table_row tables_init ["Bucket"; "1"; "2"; "groupA"]
  = Ok (Tables true false (stat1_table tables_init) (stat2_table tables_init)
          (test_table tables_init))
  /\ table_row (Tables true false [] [] []) ["PASS"]
     = Ok (Tables false true [] [] [])
  /\ table_row (Tables true true [] [] []) ["b1"; "3"; "my"; "Bucket"]
     = Ok (Tables true true
             [tr_open; td_center "b1"; td_center "3"; td_center "my Bucket";
              tr_close] [] [])
  /\ table_row (Tables false true [] [] []) ["10"; "2"]
     = Ok (Tables false false []
             ([] ++ [tr_open] ++ map td_center ["10"; "2"] ++ [tr_close]) []).
Proof.
  split; [| split; [| split]].
  - apply (create_table_mode_switch tables_init "Bucket" ["1"; "2"; "groupA"]).
    reflexivity.
  - apply (create_table_mode_switch (Tables true false [] [] []) "PASS" []).
    reflexivity.
  - destruct (create_table_mode_switch (Tables true true [] [] []) "b1"
                ["3"; "my"; "Bucket"]) as (_ & _ & H & _).
    apply (H eq_refl eq_refl eq_refl "3" ["my"; "Bucket"] eq_refl).
  - destruct (create_table_mode_switch (Tables false true [] [] []) "10" ["2"])
      as (_ & _ & _ & H & _).
    apply H; reflexivity.
Defined.

(** C4. In a normal-mode row every token equal to "pass" up to case
    (PASS, Pass, pass, ...) becomes the green cell with the text PASS
    followed by one empty left-aligned cell; every token equal to "fail"
    up to case becomes the red cell with the text Fail and nothing more;
    every other token becomes one plain left-aligned cell. *)
Theorem normal_row_cells (st : tables) (t : string) (rest : list string) :
  stat1 st = false -> stat2 st = false ->
  caseless_eq t "bucket" = false -> caseless_eq t "pass" = false ->
  table_row st (t :: rest)
  = Ok (Tables false false (stat1_table st) (stat2_table st)
          (test_table st ++ [tr_open] ++ flat_map status_cells (t :: rest)
             ++ [tr_close]))
  /\ (forall acc item,
        (caseless_eq item "pass" = true ->
         status_cell acc item = acc ++ [td_pass; td_left ""])
        /\ (caseless_eq item "fail" = true ->
            status_cell acc item = acc ++ [td_fail])
        /\ (caseless_eq item "pass" = false -> caseless_eq item "fail" = false ->
            status_cell acc item = acc ++ [td_left item]))
  /\ map (status_cell []) ["PASS"; "Pass"; "pass"; "FAIL"; "Fail"; "fail"; "passed"]
     = [[td_pass; td_left ""]; [td_pass; td_left ""]; [td_pass; td_left ""];
        [td_fail]; [td_fail]; [td_fail]; [td_left "passed"]]
  /\ td_pass
     = "<td style=" +:+ dq
       +:+ "background-color:ForestGreen; color:White; text-align:center;"
       +:+ dq +:+ ">PASS</td>"
  /\ td_fail
     = "<td style=" +:+ dq
       +:+ "background-color:Red; color:White; text-align:center;"
       +:+ dq +:+ ">Fail</td>"
  /\ (forall item, td_left item = "<td class='left'>" +:+ item +:+ "</td>").
Proof.
  intros H1 H2 Hb Hp.
  split; [rewrite (table_row_data st t rest Hb Hp), H1, H2; reflexivity |].
  split; [| repeat split].
  intros acc item. rewrite status_cell_spec. unfold status_cells.
  repeat split.
  - now intros ->.
  - intros Hf. rewrite Hf.
    destruct (caseless_eq item "pass") eqn:E; [| reflexivity].
    unfold caseless_eq in *. apply String.eqb_eq in E, Hf.
    rewrite E in Hf. vm_compute in Hf. discriminate Hf.
  - now intros -> ->.
Qed.

Lemma normal_row_cells_witness :
  table_row tables_init ["t1"; "r1"; "name"; "5"; "Pass"; "b1"; "42"]
  = Ok (Tables false false (stat1_table tables_init) (stat2_table tables_init)
          (test_table tables_init ++ [tr_open]
             ++ flat_map status_cells ["t1"; "r1"; "name"; "5"; "Pass"; "b1"; "42"]
             ++ [tr_close])).
Proof.
  apply (normal_row_cells tables_init "t1" ["r1"; "name"; "5"; "Pass"; "b1"; "42"]);
    reflexivity.
Defined.

(** C10. Bucket mode goes before a pending summary: a "bucket" row
    never clears the summary flag; after a "pass" row and then a
    "bucket" row both flags are on; with both on, a data row is rendered
    as a bucket row and both stay on; and as long as no "pass" row
    arrives in bucket mode, the summary table receives nothing. *)
Theorem bucket_precedes_summary (st : tables) :
  (forall t rest,
     caseless_eq t "bucket" = true ->
     exists st',
       table_row st (t :: rest) = Ok st'
       /\ stat1 st' = true /\ stat2 st' = stat2 st)
  /\ (forall p prest b brest,
        caseless_eq p "pass" = true -> caseless_eq b "bucket" = true ->
        table_rows [p :: prest; b :: brest] st
        = Ok (Tables true true (stat1_table st) (stat2_table st) (test_table st)))
  /\ (forall t t1 rest,
        stat1 st = true -> stat2 st = true ->
        caseless_eq t "bucket" = false -> caseless_eq t "pass" = false ->
        table_row st (t :: t1 :: rest)
        = Ok (Tables true true
                (stat1_table st ++
                   [tr_open; td_center t; td_center t1;
                    td_center (join " " rest); tr_close])
                (stat2_table st) (test_table st)))
  /\ (forall rows st',
        stat1 st = true ->
        Forall (fun row => pass_led row = false) rows ->
        table_rows rows st = Ok st' ->
        stat1 st' = true /\ stat2 st' = stat2 st
        /\ stat2_table st' = stat2_table st /\ test_table st' = test_table st).
Proof.
  split; [| split; [| split]].
  - intros t rest Hb. eexists. split; [apply table_row_bucket, Hb |].
    split; reflexivity.
  - intros p prest b brest Hp Hb. simpl.
    rewrite (table_row_pass st p prest Hp). cbn [rbind].
    rewrite (table_row_bucket _ b brest Hb). reflexivity.
  - intros t t1 rest H1 H2 Hb Hp.
    rewrite (table_row_data st t (t1 :: rest) Hb Hp), H1, H2. reflexivity.
  - intros rows st'. apply bucket_mode_stays.
Qed.

Lemma bucket_precedes_summary_witness :
  table_rows [["pass"]; ["Bucket"; "x"]] tables_init
  = Ok (Tables true true (stat1_table tables_init) (stat2_table tables_init)
          (test_table tables_init))
  /\ table_row (Tables true true [] [] []) ["b1"; "3"; "my"; "Bucket"]
     = Ok (Tables true true
             ([] ++ [tr_open; td_center "b1"; td_center "3";
                     td_center (join " " ["my"; "Bucket"]); tr_close]) [] [])
  /\ (stat1 (Tables true true [tr_open; td_center "a"; td_center "b";
                               td_center ""; tr_close] [] []) = true
      /\ stat2 (Tables true true [tr_open; td_center "a"; td_center "b";
                                  td_center ""; tr_close] [] []) = true
      /\ stat2_table (Tables true true [tr_open; td_center "a"; td_center "b";
                                        td_center ""; tr_close] [] []) = []
      /\ test_table (Tables true true [tr_open; td_center "a"; td_center "b";
                                       td_center ""; tr_close] [] []) = []).
Proof.
  split; [| split].
  - destruct (bucket_precedes_summary tables_init) as (_ & H & _).
    apply (H "pass" [] "Bucket" ["x"]); reflexivity.
  - destruct (bucket_precedes_summary (Tables true true [] [] []))
      as (_ & _ & H & _).
    apply (H "b1" "3" ["my"; "Bucket"]); reflexivity.
  - apply (proj2 (proj2 (proj2 (bucket_precedes_summary (Tables true true [] [] []))))
             [["Bucket"]; ["a"; "b"]]).
    + reflexivity.
    + repeat constructor.
    + vm_compute. reflexivity.
Defined.

(** C5. The head parser keeps every line; when the head file has fewer
    than two lines, building the head block raises IndexError, so
    composing the message does, and the run ends on that exception
    with no file written. *)
Theorem short_head_file_raises
    (to_email cc_email report_name head_name report head : string) (w : world) :
  files w !! report_name = Some report ->
  files w !! head_name = Some head ->
  length (text_lines head) < 2 ->
  (exists w', collect_head head_name w = (Ok (map split (text_lines head)), w'))
  /\ length (map split (text_lines head)) = length (text_lines head)
  /\ create_head (map split (text_lines head)) = Raise IndexError
  /\ (forall test_list w1,
        create_message test_list (map split (text_lines head)) w1
        = (Raise IndexError, w1))
  /\ fst (main to_email cc_email report_name head_name w) = Raise IndexError
  /\ files (snd (main to_email cc_email report_name head_name w)) = files w.
Proof.
  intros Hreport Hhead Hshort.
  assert (Hlen : length (map split (text_lines head)) < 2)
    by now rewrite length_map.
  split.
  { destruct (collect_head_run head_name head w Hhead) as (w' & E & _). eauto. }
  split; [apply length_map |].
  split; [now apply create_head_short |].
  split; [intros test_list w1; now apply create_message_short |].
  enough (exists w',
            main to_email cc_email report_name head_name w
            = (Raise IndexError, w') /\ files w' = files w)
    as (w' & -> & F) by (split; [reflexivity | exact F]).
  unfold main. unfold bind at 1. cbn [print].
  set (w1 := log _ w).
  destruct (collect_results_run report_name report w1 Hreport) as (w2 & E2 & F2).
  unfold bind at 1. rewrite E2.
  assert (Hhead2 : files w2 !! head_name = Some head) by now rewrite F2.
  destruct (collect_head_run head_name head w2 Hhead2) as (w3 & E3 & F3).
  unfold bind at 1. rewrite E3.
  unfold bind at 1. rewrite (create_message_short _ _ w3 Hlen). simpl.
  exists w3. split; [reflexivity | now rewrite F3, F2].
Qed.

Lemma short_head_file_raises_witness :
  fst (main "to.txt" "cc.txt" "out/run.1/report.txt" "one.txt" demo_world)
  = Raise IndexError.
Proof.
  apply (short_head_file_raises "to.txt" "cc.txt" "out/run.1/report.txt" "one.txt"
           ("Title" +:+ nl +:+ "-----" +:+ nl +:+
            "t1 r1 testname 5 PASS b1 42" +:+ nl +:+
            "t2 r2 <other> 3 FAIL b2 7" +:+ nl)
           ("/path/x" +:+ nl) demo_world).
  - vm_compute. reflexivity.
  - vm_compute. reflexivity.
  - vm_compute. lia.
Defined.

(** C6. With fewer than five entries in argv (fewer than four
    arguments after the program name) the script prints the usage line
    and exits with code -1, having opened and written no file; with
    five or more it runs main on the four arguments. *)
Theorem script_checks_argument_count (argv : list string) (w : world) :
  (length argv < 5 ->
   script argv w
   = (Raise (SystemExit (-1)),
      World (files w) (events w ++ [Printed (usage +:+ nl)])
        (strftime_now w) (TEMPLATE_PATH w) (unwritable w)))
  /\ (forall a0 a1 a2 a3 a4 more,
        argv = a0 :: a1 :: a2 :: a3 :: a4 :: more ->
        script argv w = main a1 a2 a3 a4 w).
Proof.
  split.
  - intros H. unfold script. apply Nat.ltb_lt in H. rewrite H. reflexivity.
  - intros a0 a1 a2 a3 a4 more ->. reflexivity.
Qed.

Lemma script_checks_argument_count_witness :
  script ["generate_html.py"; "to.txt"; "cc.txt"; "out/run.1/report.txt"]
    demo_world
  = (Raise (SystemExit (-1)),
     World (files demo_world) (events demo_world ++ [Printed (usage +:+ nl)])
       (strftime_now demo_world) (TEMPLATE_PATH demo_world)
       (unwritable demo_world))
  /\ script ["generate_html.py"; "to.txt"; "cc.txt"; "out/run.1/report.txt";
             "head.txt"] demo_world
     = main "to.txt" "cc.txt" "out/run.1/report.txt" "head.txt" demo_world.
Proof.
  split.
  - apply (script_checks_argument_count
             ["generate_html.py"; "to.txt"; "cc.txt"; "out/run.1/report.txt"]
             demo_world).
    simpl. lia.
  - destruct (script_checks_argument_count
                ["generate_html.py"; "to.txt"; "cc.txt"; "out/run.1/report.txt";
                 "head.txt"] demo_world) as (_ & H).
    apply (H "generate_html.py" "to.txt" "cc.txt" "out/run.1/report.txt"
             "head.txt" []).
    reflexivity.
Defined.

(** C7. Whatever the report path, it is its base followed by its
    extension, the HTML path is that same base followed by [.html], and
    a run of main that completes has written the report there and
    touched no other file.  The cut is the one of [os.path.splitext]:
    a path ending in a file name with an extension (a last dot after a
    character of the name that is not a dot) loses exactly that
    extension; any other path (plain name, hidden file, dots only,
    trailing slash) is kept whole; and every path is of one of these
    two kinds. *)
Theorem html_file_beside_report (report_name : string) :
  exists base ext,
    splitext report_name = (base, ext)
    /\ report_name = base +:+ ext
    /\ is_extension ext
    /\ html_path report_name = base +:+ ".html"
    /\ (forall to_email cc_email head_name w w',
          main to_email cc_email report_name head_name w = (Ok tt, w') ->
          exists html_report,
            files w' = <[base +:+ ".html" := html_report]> (files w))
    /\ (forall dir stem e,
          with_extension report_name dir stem e ->
          base = dir +:+ stem /\ ext = String "." e
          /\ html_path report_name = (dir +:+ stem) +:+ ".html")
    /\ (forall dir dots rest,
          without_extension report_name dir dots rest ->
          base = report_name /\ ext = ""
          /\ html_path report_name = report_name +:+ ".html")
    /\ ((exists dir stem e, with_extension report_name dir stem e)
        \/ (exists dir dots rest, without_extension report_name dir dots rest)).
Proof.
  exists (fst (splitext report_name)), (snd (splitext report_name)).
  split; [now destruct (splitext report_name) |].
  split; [symmetry; apply splitext_join |].
  split; [apply splitext_extension |].
  split; [reflexivity |].
  split.
  { intros to_email cc_email head_name w w' H.
    apply main_files in H. exact H. }
  split.
  { intros dir stem e H. unfold html_path.
    rewrite (splitext_with_extension report_name dir stem e H).
    repeat split. }
  split.
  { intros dir dots rest H. unfold html_path.
    rewrite (splitext_without_extension report_name dir dots rest H).
    repeat split. }
  apply path_shape.
Qed.

Lemma html_file_beside_report_witness :
  (exists html_report,
     files (snd (main "to.txt" "cc.txt" "out/run.1/report.txt" "head.txt"
                   demo_world))
     = <["out/run.1/report.html" := html_report]> (files demo_world))
  /\ html_path "out/run.1/report.tar.gz" = "out/run.1/report.tar.html"
  /\ html_path "out/.report" = "out/.report.html".
Proof.
  split; [| split].
  - destruct (html_file_beside_report "out/run.1/report.txt")
      as (base & ext & _ & _ & _ & _ & Hmain & Hcut & _).
    destruct (Hcut "out/run.1/" "report" "txt") as (-> & _ & _);
      [repeat split |].
    apply (Hmain "to.txt" "cc.txt" "head.txt" demo_world).
    vm_compute. reflexivity.
  - destruct (html_file_beside_report "out/run.1/report.tar.gz")
      as (base & ext & _ & _ & _ & _ & _ & Hcut & _).
    apply (Hcut "out/run.1/" "report.tar" "gz"). repeat split.
  - destruct (html_file_beside_report "out/.report")
      as (base & ext & _ & _ & _ & _ & _ & _ & Hkeep & _).
    apply (Hkeep "out/" "." "report"). repeat split. right. now exists "out".
Defined.

(** * Further properties of the script *)

(** ** Tokens *)

Lemma nonspace_app (a b : string) :
  nonspace (a +:+ b) = nonspace a && nonspace b.
Proof.
  induction a as [|c a IH]; simpl; [reflexivity |].
  now rewrite IH, andb_assoc.
Qed.

Lemma split_from_nonspace (s cur tok : string) :
  nonspace cur = true -> In tok (split_from cur s) -> nonspace tok = true.
Proof.
  revert cur. induction s as [|c s IH]; intros cur Hcur; simpl.
  - destruct cur; simpl; [tauto | intros [<- | []]; exact Hcur].
  - destruct (isspace c) eqn:Hc.
    + destruct cur; simpl; [now apply IH |].
      intros [<- | H]; [exact Hcur | now apply (IH "")].
    + apply IH. rewrite nonspace_app, Hcur. simpl. now rewrite Hc.
Qed.

Lemma split_from_nil_iff (s cur : string) :
  split_from cur s = [] <-> cur = "" /\ all_space s = true.
Proof.
  revert cur. induction s as [|c s IH]; intros cur; simpl.
  - destruct cur; split; try tauto; try discriminate. intros [H _]. discriminate H.
  - destruct (isspace c) eqn:Hc; simpl.
    + destruct cur; [apply IH |]. split; [discriminate | intros [H _]; discriminate H].
    + rewrite IH. split; [| intros [_ H]; discriminate H].
      intros [H _]. destruct cur; discriminate H.
Qed.

Lemma split_nil_iff (s : string) : split s = [] <-> all_space s = true.
Proof. unfold split. rewrite split_from_nil_iff. tauto. Qed.

Lemma split_from_space (cur s : string) (c : ascii) :
  isspace c = true -> cur <> "" ->
  split_from cur (String c s) = cur :: split_from "" s.
Proof. intros Hc Hcur. simpl. rewrite Hc. destruct cur; [congruence | reflexivity]. Qed.

(** [split] undoes [" ".join] on a list of tokens. *)
Lemma split_join (toks : list string) :
  Forall (fun tok => tok <> "" /\ nonspace tok = true) toks ->
  split (join " " toks) = toks.
Proof.
  unfold split, join. induction toks as [|t toks IH]; intros H; [reflexivity |].
  inversion H as [|? ? [Hne Hns] Hrest]; subst.
  destruct toks as [|t' toks].
  - simpl. rewrite <- (string_app_nil_r t) at 1.
    rewrite split_from_prefix by assumption. simpl.
    destruct t; [congruence | reflexivity].
  - change (String.concat " " (t :: t' :: toks))
      with (t +:+ String " " (String.concat " " (t' :: toks))).
    rewrite split_from_prefix by assumption.
    change ("" +:+ t) with t.
    rewrite split_from_space by (reflexivity || assumption).
    now rewrite (IH Hrest).
Qed.

Lemma split_tokens (s : string) :
  Forall (fun tok => tok <> "" /\ nonspace tok = true) (split s).
Proof.
  apply List.Forall_forall. intros tok H. split.
  - now apply (split_nonempty s).
  - now apply (split_from_nonspace s "").
Qed.

Lemma Forall_skipn {A} (P : A -> Prop) (n : nat) (l : list A) :
  Forall P l -> Forall P (skipn n l).
Proof.
  revert l. induction n as [|n IH]; intros [|x l] H; simpl; try assumption.
  inversion H; subst. now apply IH.
Qed.

(** ** Occurrences of a character *)

Lemma replace_removes (old : ascii) (new s : string) :
  occurs old new = false -> occurs old (replace old new s) = false.
Proof.
  intros Hnew. induction s as [|c s IH]; simpl; [reflexivity |].
  destruct (Ascii.eqb c old) eqn:E.
  - now rewrite occurs_app, Hnew, IH.
  - simpl. now rewrite E, IH.
Qed.

Lemma replace_keeps_absent (c old : ascii) (new s : string) :
  occurs c new = false -> occurs c s = false ->
  occurs c (replace old new s) = false.
Proof.
  intros Hnew. induction s as [|x s IH]; simpl; [reflexivity |].
  intros [Hx Hs]%orb_false_elim. destruct (Ascii.eqb x old).
  - now rewrite occurs_app, Hnew, IH.
  - simpl. now rewrite Hx, IH.
Qed.

Lemma replace_absent (old : ascii) (new s : string) :
  occurs old s = false -> replace old new s = s.
Proof.
  induction s as [|x s IH]; simpl; [reflexivity |].
  intros [Hx Hs]%orb_false_elim. now rewrite Hx, IH.
Qed.

Lemma escape_no_angle (s : string) :
  occurs "<" (escape s) = false /\ occurs ">" (escape s) = false.
Proof.
  unfold escape. split.
  - apply replace_keeps_absent; [reflexivity |]. now apply replace_removes.
  - now apply replace_removes.
Qed.

Lemma split_from_occurs (c : ascii) (s cur tok : string) :
  occurs c cur = false -> occurs c s = false ->
  In tok (split_from cur s) -> occurs c tok = false.
Proof.
  revert cur. induction s as [|x s IH]; intros cur Hcur Hs; simpl.
  - destruct cur; simpl; [tauto | intros [<- | []]; exact Hcur].
  - simpl in Hs. apply orb_false_elim in Hs as [Hx Hs].
    destruct (isspace x).
    + destruct cur; simpl; [now apply IH |].
      intros [<- | H]; [exact Hcur | now apply (IH "")].
    + apply IH; [| assumption]. rewrite occurs_app, Hcur. simpl. now rewrite Hx.
Qed.

(** ** The records of the parser *)

Lemma parsed_records (lines : list string) :
  exists recs,
    collect_lines lines = Ok recs
    /\ Forall (fun r => exists line,
                 In line (skipn 2 lines) /\ retained line = true
                 /\ r = record_of line) recs.
Proof.
  eexists. split; [apply collect_lines_spec |].
  apply List.Forall_forall.
  intros r (line & <- & [Hin Hret]%List.filter_In)%List.in_map_iff.
  now exists line.
Qed.

Lemma record_of_length (line : string) :
  retained line = true -> 4 <= length (record_of line).
Proof.
  intros H. unfold record_of. rewrite split_escape, length_map.
  now apply retained_length.
Qed.

(** X1. The head block can be built exactly when the head file has at
    least two lines and neither of the first two is blank; it then
    shows the first token of each of them and ignores everything else.
    Whenever it cannot be built the exception is IndexError. *)
Theorem head_block_needs_two_nonblank_lines (lines : list string) :
  ((exists html, create_head (collect_head_lines lines) = Ok html)
   <-> exists l0 l1 more,
         lines = l0 :: l1 :: more
         /\ all_space l0 = false /\ all_space l1 = false)
  /\ (forall l0 l1 more path r0 commit r1,
        lines = l0 :: l1 :: more ->
        split l0 = path :: r0 -> split l1 = commit :: r1 ->
        create_head (collect_head_lines lines)
        = Ok (join ""
                ["<p>" +:+ nl;
                 "<b>Regression test path: </b>" +:+ path +:+ "<br>" +:+ nl;
                 "<b>Latest commit on test branch: </b>" +:+ commit +:+ "<br>"
                   +:+ nl;
                 "</p>" +:+ nl]))
  /\ (forall e, create_head (collect_head_lines lines) = Raise e -> e = IndexError).
Proof.
  rewrite collect_head_lines_spec.
  assert (Hblank : forall l, all_space l = false <-> split l <> []).
  { intros l. rewrite split_nil_iff. now destruct (all_space l). }
  split; [| split].
  - split.
    + intros [html H]. destruct lines as [|l0 [|l1 more]].
      * discriminate H.
      * unfold create_head, index in H. simpl in H.
        destruct (split l0); discriminate H.
      * exists l0, l1, more. rewrite !Hblank.
        unfold create_head, index in H. simpl in H.
        destruct (split l0); [discriminate H |].
        destruct (split l1); [discriminate H |].
        repeat split; discriminate.
    + intros (l0 & l1 & more & -> & H0 & H1). apply Hblank in H0, H1.
      unfold create_head, index. simpl.
      destruct (split l0); [congruence |].
      destruct (split l1); [congruence |]. simpl. eauto.
  - intros l0 l1 more path r0 commit r1 -> H0 H1.
    unfold create_head, index. simpl. rewrite H0, H1. reflexivity.
  - intros e. unfold create_head, index.
    destruct lines as [|l0 [|l1 more]]; simpl.
    + intros [= <-]. reflexivity.
    + destruct (split l0); simpl; intros [= <-]; reflexivity.
    + destruct (split l0); simpl; [intros [= <-]; reflexivity |].
      destruct (split l1); simpl; [intros [= <-]; reflexivity | discriminate].
Qed.

Lemma head_block_needs_two_nonblank_lines_witness :
  create_head (collect_head_lines ["/path/x" +:+ nl; "abc123 (HEAD)" +:+ nl; "x"])
  = Ok (join ""
          ["<p>" +:+ nl;
           "<b>Regression test path: </b>" +:+ "/path/x" +:+ "<br>" +:+ nl;
           "<b>Latest commit on test branch: </b>" +:+ "abc123" +:+ "<br>" +:+ nl;
           "</p>" +:+ nl]).
Proof.
  destruct (head_block_needs_two_nonblank_lines
              ["/path/x" +:+ nl; "abc123 (HEAD)" +:+ nl; "x"]) as (_ & H & _).
  apply (H ("/path/x" +:+ nl) ("abc123 (HEAD)" +:+ nl) ["x"] "/path/x" []
           "abc123" ["(HEAD)"]); reflexivity.
Defined.

(** X2. No record of the parser holds an angle bracket, whatever the
    report; a line without angle brackets is recorded as it is split.
    The ampersand is left alone, so the escape cannot be undone. *)
Theorem records_have_no_angle_brackets (lines : list string) :
  (exists recs,
     collect_lines lines = Ok recs
     /\ Forall (Forall (fun tok => occurs "<" tok = false
                                   /\ occurs ">" tok = false)) recs)
  /\ (forall line,
        occurs "<" line = false -> occurs ">" line = false ->
        record_of line = split line)
  /\ ~ (forall a b, escape a = escape b -> a = b).
Proof.
  split; [| split].
  - destruct (parsed_records lines) as (recs & Hrun & Hrecs).
    exists recs. split; [exact Hrun |].
    eapply List.Forall_impl; [| exact Hrecs]. intros r (line & _ & _ & ->).
    apply List.Forall_forall. intros tok Htok.
    destruct (escape_no_angle line) as [Hlt Hgt].
    split; eapply split_from_occurs; try exact Htok; try reflexivity; assumption.
  - intros line Hlt Hgt. unfold record_of, escape.
    rewrite (replace_absent "<" "&lt" line Hlt). now rewrite replace_absent.
  - intros H. specialize (H "<" "&lt" eq_refl). discriminate H.
Qed.

Lemma records_have_no_angle_brackets_witness :
  record_of "t1 r1 name 5 PASS" = split "t1 r1 name 5 PASS".
Proof.
  apply (records_have_no_angle_brackets []); reflexivity.
Defined.

(** X3. Every token of every record is non-empty and free of white
    space, so joining any tail of a record with single spaces (as the
    bucket-name cell does) and splitting it again gives that tail back. *)
Theorem record_tokens_round_trip (lines : list string) :
  exists recs,
    collect_lines lines = Ok recs
    /\ Forall (fun r =>
                 Forall (fun tok => tok <> "" /\ nonspace tok = true) r
                 /\ forall n, split (join " " (skipn n r)) = skipn n r) recs.
Proof.
  destruct (parsed_records lines) as (recs & Hrun & Hrecs).
  exists recs. split; [exact Hrun |].
  eapply List.Forall_impl; [| exact Hrecs]. intros r (line & _ & _ & ->).
  pose proof (split_tokens (escape line)) as Htoks.
  split; [exact Htoks |]. intros n. apply split_join. now apply Forall_skipn.
Qed.

(** X4. The first two lines contribute nothing whatever they hold, a
    file of at most two lines gives no record, and every later line
    contributes by itself: its record does not depend on its position
    or on the other lines. *)
Theorem parser_is_linewise_after_header (header more : list string) :
  length header = 2 ->
  collect_lines header = Ok []
  /\ collect_lines (header ++ more)
     = Ok (map record_of (List.filter retained more))
  /\ (forall short, length short <= 2 -> collect_lines short = Ok [])
  /\ (forall more',
        collect_lines (header ++ more ++ more')
        = Ok (map record_of (List.filter retained more)
              ++ map record_of (List.filter retained more'))).
Proof.
  intros Hlen.
  destruct header as [|h0 [|h1 [|h2 rest]]]; try discriminate Hlen.
  split; [reflexivity |].
  split; [now rewrite collect_lines_spec |].
  split.
  - intros short Hs. rewrite collect_lines_spec.
    destruct short as [|s0 [|s1 [|s2 rest]]]; simpl in *; try reflexivity; lia.
  - intros more'. rewrite collect_lines_spec.
    change (skipn 2 ([h0; h1] ++ more ++ more')) with (more ++ more').
    now rewrite List.filter_app, List.map_app.
Qed.

Lemma parser_is_linewise_after_header_witness :
  collect_lines (["- - - - -"; "t0 r0 zero 1 PASS"] ++ ["t1 r1 one 5 FAIL"])
  = Ok (map record_of (List.filter retained ["t1 r1 one 5 FAIL"])).
Proof.
  apply (parser_is_linewise_after_header ["- - - - -"; "t0 r0 zero 1 PASS"]).
  reflexivity.
Defined.

(** ** The renderer on whole streams *)

Ltac row_cases st t rest Hb Hp :=
  destruct (caseless_eq t "bucket") eqn:Hb;
  [ rewrite (table_row_bucket st t rest Hb)
  | destruct (caseless_eq t "pass") eqn:Hp;
    [ rewrite (table_row_pass st t rest Hp)
    | rewrite (table_row_data st t rest Hb Hp) ] ].

Lemma table_row_total (st : tables) (test : list string) :
  2 <= length test -> exists st', table_row st test = Ok st'.
Proof.
  destruct test as [|t [|t1 rest]]; simpl; try lia. intros _.
  row_cases st t (t1 :: rest) Hb Hp; try (eexists; reflexivity).
  destruct (stat1 st); [| destruct (stat2 st)]; eexists; reflexivity.
Qed.

Lemma table_rows_total (rows : list (list string)) :
  Forall (fun r => 2 <= length r) rows ->
  forall st, exists st', table_rows rows st = Ok st'.
Proof.
  induction 1 as [|row rows Hrow _ IH]; intros st; simpl; [eauto |].
  destruct (table_row_total st row Hrow) as [st1 ->]. simpl. apply IH.
Qed.

Lemma Ok_inj {A} (a b : A) : Ok a = Ok b -> a = b.
Proof. now intros [= ->]. Qed.

Lemma count_rows_app (a b : list string) :
  count_rows (a ++ b) = count_rows a + count_rows b.
Proof. unfold count_rows. now rewrite List.filter_app, length_app. Qed.

Lemma count_rows_td_center (l : list string) : count_rows (map td_center l) = 0.
Proof. induction l as [|x l IH]; [reflexivity | exact IH]. Qed.

Lemma count_rows_bucket_row (a b c : string) :
  count_rows [tr_open; td_center a; td_center b; td_center c; tr_close] = 1.
Proof. reflexivity. Qed.

Lemma count_rows_status_cells (l : list string) :
  count_rows (flat_map status_cells l) = 0.
Proof.
  induction l as [|x l IH]; [reflexivity |]. simpl.
  rewrite count_rows_app, IH. unfold status_cells.
  destruct (caseless_eq x "pass"); [reflexivity |].
  destruct (caseless_eq x "fail"); reflexivity.
Qed.

Lemma count_rows_normal_row (test : list string) : count_rows (normal_row test) = 1.
Proof.
  unfold normal_row. rewrite !count_rows_app, count_rows_status_cells. reflexivity.
Qed.

(** One pass of the loop: a control row emits nothing, any other row
    exactly one body row; a summary row uses up the summary flag. *)
Lemma table_row_step (st st1 : tables) (test : list string) :
  table_row st test = Ok st1 ->
  emitted_rows st1 = emitted_rows st + Nat.b2n (negb (is_control test))
  /\ count_rows (stat2_table st1) + Nat.b2n (stat2 st1)
     <= count_rows (stat2_table st) + Nat.b2n (stat2 st)
        + Nat.b2n (pass_led test).
Proof.
  destruct test as [|t rest]; [discriminate |].
  unfold is_control, emitted_rows. simpl bucket_led. simpl pass_led.
  row_cases st t rest Hb Hp.
  - intros [= <-]. simpl. destruct (stat2 st); simpl; lia.
  - intros [= <-]. simpl. destruct (stat2 st); simpl; lia.
  - cbn [Nat.b2n negb orb]. destruct (stat1 st).
    + destruct (index (t :: rest) 1) as [c1 | e]; [| discriminate].
      intros [= <-]. simpl. rewrite count_rows_app.
      rewrite count_rows_bucket_row. lia.
    + destruct (stat2 st); intros H%Ok_inj; subst st1;
        cbn [stat1_table stat2_table test_table stat2 Nat.b2n negb orb].
      * rewrite !count_rows_app, count_rows_td_center.
        change (count_rows [tr_open]) with 1.
        change (count_rows [tr_close]) with 0. lia.
      * rewrite !count_rows_app, count_rows_status_cells.
        change (count_rows [tr_open]) with 1.
        change (count_rows [tr_close]) with 0. lia.
Qed.

(** X5. Rendering the records of any report succeeds: the parser never
    hands the renderer a row it cannot index. *)
Theorem parsed_report_renders (lines : list string) :
  exists recs html,
    collect_lines lines = Ok recs
    /\ Forall (fun r => 4 <= length r) recs
    /\ create_table recs = Ok html.
Proof.
  destruct (parsed_records lines) as (recs & Hrun & Hrecs).
  assert (H4 : Forall (fun r => 4 <= length r) recs).
  { eapply List.Forall_impl; [| exact Hrecs]. intros r (line & _ & Hret & ->).
    now apply record_of_length. }
  assert (H2 : Forall (fun r => 2 <= length r) recs).
  { eapply List.Forall_impl; [| exact H4]. intros r Hr. simpl in Hr. lia. }
  destruct (table_rows_total recs H2 tables_init) as [st Hst].
  exists recs. eexists. split; [exact Hrun |]. split; [exact H4 |].
  unfold create_table. rewrite Hst. reflexivity.
Qed.

(** X6. Called on rows of its own, the renderer aborts with IndexError
    on an empty row in any mode, and on a one-token data row once
    bucket mode is on; a one-token row is harmless while bucket mode is
    off. *)
Theorem short_row_aborts_rendering
    (rows1 rows2 : list (list string)) (st : tables) (t : string) :
  table_rows rows1 tables_init = Ok st ->
  create_table (rows1 ++ [] :: rows2) = Raise IndexError
  /\ (stat1 st = true ->
      caseless_eq t "bucket" = false -> caseless_eq t "pass" = false ->
      create_table (rows1 ++ [t] :: rows2) = Raise IndexError)
  /\ (stat1 st = false -> exists st', table_row st [t] = Ok st').
Proof.
  intros Hrun. unfold create_table. rewrite !table_rows_app, Hrun.
  split; [reflexivity |]. split.
  - intros H1 Hb Hp. simpl. rewrite (table_row_data st t [] Hb Hp), H1.
    reflexivity.
  - intros H1. row_cases st t (@nil string) Hb Hp; try (eexists; reflexivity).
    rewrite H1. destruct (stat2 st); eexists; reflexivity.
Qed.

Lemma short_row_aborts_rendering_witness :
  create_table ([["bucket"; "id"; "count"; "name"]] ++ [] :: [])
  = Raise IndexError
  /\ create_table ([["bucket"; "id"; "count"; "name"]] ++ ["b1"] :: [])
     = Raise IndexError.
Proof.
  destruct (short_row_aborts_rendering [["bucket"; "id"; "count"; "name"]] []
              (Tables true false (stat1_table tables_init)
                 (stat2_table tables_init) (test_table tables_init))
              "b1" eq_refl) as (H0 & H1 & _).
  split; [exact H0 | apply H1; reflexivity].
Defined.

(** X7. Rows are conserved: when rendering completes, the three tables
    together have gained exactly one body row per row that is not a
    control row. *)
Theorem rows_are_conserved (rows : list (list string)) (st st' : tables) :
  table_rows rows st = Ok st' ->
  emitted_rows st'
  = emitted_rows st + length (List.filter (fun r => negb (is_control r)) rows).
Proof.
  revert st. induction rows as [|row rows IH]; intros st; simpl.
  - intros [= <-]. lia.
  - destruct (table_row st row) as [st1 | e] eqn:E; [| discriminate].
    simpl. intros H. apply IH in H.
    apply table_row_step in E as [E _]. rewrite H, E.
    destruct (is_control row); simpl; lia.
Qed.

Lemma rows_are_conserved_witness :
  emitted_rows (Tables false false
                  [tr_open; td_center "b1"; td_center "3"; td_center "x y";
                   tr_close]
                  [tr_open; td_center "t1"; td_center "r1"; tr_close] [])
  = emitted_rows (Tables false false [] [] [])
    + length (List.filter (fun r => negb (is_control r))
                [["Bucket"]; ["b1"; "3"; "x"; "y"]; ["PASS"; "FAIL"];
                 ["bucket"]; ["pass"]; ["pass"]; ["t1"; "r1"]]).
Proof.
  apply (rows_are_conserved
           [["Bucket"]; ["b1"; "3"; "x"; "y"]; ["PASS"; "FAIL"];
            ["bucket"]; ["pass"]; ["pass"]; ["t1"; "r1"]]
           (Tables false false [] [] [])).
  vm_compute. reflexivity.
Defined.

(** X8. A summary marker buys at most one summary row: the summary
    table never gains more rows than there are pass-led rows, plus one
    if the summary flag was already on. *)
Theorem summary_rows_bounded (rows : list (list string)) (st st' : tables) :
  table_rows rows st = Ok st' ->
  count_rows (stat2_table st') + Nat.b2n (stat2 st')
  <= count_rows (stat2_table st) + Nat.b2n (stat2 st)
     + length (List.filter pass_led rows).
Proof.
  revert st. induction rows as [|row rows IH]; intros st; simpl.
  - intros [= <-]. lia.
  - destruct (table_row st row) as [st1 | e] eqn:E; [| discriminate].
    simpl. intros H. apply IH in H.
    apply table_row_step in E as [_ E].
    destruct (pass_led row); simpl in *; lia.
Qed.

Lemma summary_rows_bounded_witness :
  count_rows (stat2_table (Tables false false [] (tr_open :: map td_center ["1"; "2"] ++ [tr_close]) (normal_row ["3"])))
  + Nat.b2n false
  <= count_rows (stat2_table (Tables false false [] [] [])) + Nat.b2n false
     + length (List.filter pass_led [["pass"]; ["PASS"]; ["1"; "2"]; ["3"]]).
Proof.
  apply (summary_rows_bounded [["pass"]; ["PASS"]; ["1"; "2"]; ["3"]]
           (Tables false false [] [] [])
           (Tables false false [] (tr_open :: map td_center ["1"; "2"] ++ [tr_close])
              (normal_row ["3"]))).
  vm_compute. reflexivity.
Defined.

(** X9. A stream without control rows (and without empty rows), met
    with both flags off, goes to the main table row by row and in
    order; the bucket and summary tables are left as they were. *)
Theorem stream_without_markers (rows : list (list string)) (st : tables) :
  stat1 st = false -> stat2 st = false ->
  Forall (fun r => r <> [] /\ is_control r = false) rows ->
  table_rows rows st
  = Ok (Tables false false (stat1_table st) (stat2_table st)
          (test_table st ++ flat_map normal_row rows)).
Proof.
  intros H1 H2 Hrows. revert st H1 H2.
  induction Hrows as [|row rows [Hne Hctl] _ IH]; intros st H1 H2;
    cbn [table_rows flat_map].
  - rewrite List.app_nil_r. destruct st; simpl in *. now subst.
  - destruct row as [|t rest]; [congruence |].
    unfold is_control in Hctl. simpl in Hctl.
    apply orb_false_elim in Hctl as [Hb Hp].
    rewrite (table_row_data st t rest Hb Hp), H1, H2. cbn [rbind].
    rewrite IH by reflexivity.
    cbn [stat1_table stat2_table test_table]. unfold normal_row.
    now rewrite <- !List.app_assoc.
Qed.

Lemma stream_without_markers_witness :
  table_rows [["t1"; "PASS"]; ["fail"]] tables_init
  = Ok (Tables false false (stat1_table tables_init) (stat2_table tables_init)
          (test_table tables_init
             ++ flat_map normal_row [["t1"; "PASS"]; ["fail"]])).
Proof.
  apply (stream_without_markers [["t1"; "PASS"]; ["fail"]] tables_init);
    try reflexivity.
  repeat constructor; discriminate.
Defined.

(** X10. A normal-mode row is wider than its tokens by one cell per
    token reading "pass": it has as many cells as tokens plus pass
    tokens, between one opening and one closing fragment. *)
Theorem pass_rows_are_wider (st : tables) (t : string) (rest : list string) :
  stat1 st = false -> stat2 st = false ->
  caseless_eq t "bucket" = false -> caseless_eq t "pass" = false ->
  exists st',
    table_row st (t :: rest) = Ok st'
    /\ test_table st' = test_table st ++ normal_row (t :: rest)
    /\ length (flat_map status_cells (t :: rest))
       = length (t :: rest) + count_pass (t :: rest).
Proof.
  intros H1 H2 Hb Hp. rewrite (table_row_data st t rest Hb Hp), H1, H2.
  eexists. split; [reflexivity |]. split; [reflexivity |].
  generalize (t :: rest). intros l. unfold count_pass.
  induction l as [|x l IH]; [reflexivity |].
  simpl. rewrite length_app, IH. unfold status_cells.
  destruct (caseless_eq x "pass"); simpl; [lia |].
  destruct (caseless_eq x "fail"); simpl; lia.
Qed.

Lemma pass_rows_are_wider_witness :
  exists st',
    table_row tables_init ["t1"; "pass"; "x"; "PASS"] = Ok st'
    /\ test_table st'
       = test_table tables_init ++ normal_row ["t1"; "pass"; "x"; "PASS"]
    /\ length (flat_map status_cells ["t1"; "pass"; "x"; "PASS"])
       = length ["t1"; "pass"; "x"; "PASS"]
         + count_pass ["t1"; "pass"; "x"; "PASS"].
Proof.
  apply (pass_rows_are_wider tables_init "t1" ["pass"; "x"; "PASS"]);
    reflexivity.
Defined.

(** ** Lines of a text file *)

Lemma lines_from_cr (cur s : string) :
  lines_from cur (String "013" s)
  = (cur +:+ nl)
      :: lines_from ""
           (match s with
            | String c s' => if Ascii.eqb c "010" then s' else s
            | EmptyString => s
            end).
Proof.
  destruct s as [|c s']; [reflexivity |]. ascii_cases c; reflexivity.
Qed.

(** Each line is a stretch of the text without line feed, possibly
    followed by one line feed. *)
Lemma lines_from_shape (n : nat) :
  forall s cur line,
    String.length s <= n ->
    occurs "010" cur = false ->
    In line (lines_from cur s) ->
    exists body,
      (line = body \/ line = body +:+ nl)
      /\ occurs "010" body = false
      /\ forall c, occurs c body = true ->
                   occurs c cur = true \/ occurs c s = true.
Proof.
  induction n as [|n IH]; intros s cur line Hlen Hcur Hin.
  - destruct s; [| simpl in Hlen; lia]. simpl in Hin.
    destruct cur; [destruct Hin |]. destruct Hin as [<- | []].
    eexists. split; [left; reflexivity |]. split; [exact Hcur | tauto].
  - destruct s as [|c s].
    { simpl in Hin. destruct cur; [destruct Hin |]. destruct Hin as [<- | []].
      eexists. split; [left; reflexivity |]. split; [exact Hcur | tauto]. }
    simpl in Hlen.
    destruct (Ascii.eqb_spec c "010") as [-> | Hlf].
    { simpl in Hin. destruct Hin as [<- | Hin].
      - exists cur. split; [now right |]. split; [exact Hcur | tauto].
      - apply IH in Hin as (body & Hb & Hno & Hch); [| lia | reflexivity].
        exists body. split; [exact Hb |]. split; [exact Hno |].
        intros x Hx. apply Hch in Hx as [Hx | Hx]; [discriminate Hx |].
        right. simpl. now rewrite Hx, orb_true_r. }
    destruct (Ascii.eqb_spec c "013") as [-> | Hcr].
    { rewrite lines_from_cr in Hin. destruct Hin as [<- | Hin].
      - exists cur. split; [now right |]. split; [exact Hcur | tauto].
      - apply IH in Hin as (body & Hb & Hno & Hch); [| | reflexivity].
        + exists body. split; [exact Hb |]. split; [exact Hno |].
          intros x Hx. apply Hch in Hx as [Hx | Hx]; [discriminate Hx |].
          right. simpl. destruct s as [|c' s']; [discriminate Hx |].
          destruct (Ascii.eqb c' "010").
          * simpl. now rewrite Hx, !orb_true_r.
          * now rewrite Hx, orb_true_r.
        + destruct s as [|c' s']; [simpl; lia |].
          destruct (Ascii.eqb c' "010"); simpl in *; lia. }
    assert (E : lines_from cur (String c s)
                = lines_from (cur +:+ String c "") s).
    { simpl. apply Ascii.eqb_neq in Hlf, Hcr. now rewrite Hlf, Hcr. }
    rewrite E in Hin.
    apply IH in Hin as (body & Hb & Hno & Hch); [| lia |].
    + exists body. split; [exact Hb |]. split; [exact Hno |].
      intros x Hx. apply Hch in Hx as [Hx | Hx].
      * rewrite occurs_app in Hx. apply orb_prop in Hx as [Hx | Hx]; [now left |].
        right. simpl in *. rewrite orb_false_r in Hx. now rewrite Hx.
      * right. simpl. now rewrite Hx, orb_true_r.
    + rewrite occurs_app, Hcur. simpl. apply Ascii.eqb_neq in Hlf.
      now rewrite Hlf.
Qed.

Lemma text_lines_shape (text line : string) :
  In line (text_lines text) ->
  exists body,
    (line = body \/ line = body +:+ nl)
    /\ occurs "010" body = false
    /\ forall c, occurs c body = true -> occurs c text = true.
Proof.
  intros Hin.
  destruct (lines_from_shape (String.length text) text "" line
              (Nat.le_refl _) eq_refl Hin) as (body & Hb & Hno & Hch).
  exists body. split; [exact Hb |]. split; [exact Hno |].
  intros c Hc. apply Hch in Hc as [Hc | Hc]; [discriminate Hc | exact Hc].
Qed.

(** ** rstrip and split on a separator *)

Lemma rstrip_snoc_space (s : string) (c : ascii) :
  isspace c = true -> rstrip (s +:+ String c "") = rstrip s.
Proof.
  intros Hc. induction s as [|x s IH]; simpl; [now rewrite Hc |].
  now rewrite IH.
Qed.

Lemma occurs_rstrip (c : ascii) (s : string) :
  occurs c s = false -> occurs c (rstrip s) = false.
Proof.
  induction s as [|x s IH]; simpl; [reflexivity |].
  intros [Hx Hs]%orb_false_elim. specialize (IH Hs).
  destruct (rstrip s) as [|y r].
  - destruct (isspace x); simpl; [reflexivity | now rewrite Hx].
  - simpl in *. now rewrite Hx, IH.
Qed.

Lemma split_from_rstrip (s cur : string) :
  split_from cur (rstrip s) = split_from cur s.
Proof.
  revert cur. induction s as [|c s IH]; intros cur; [reflexivity |].
  simpl rstrip. destruct (rstrip s) as [|y r] eqn:E.
  - destruct (isspace c) eqn:Hc; simpl; rewrite Hc.
    + rewrite <- !IH. simpl. now destruct cur.
    + now rewrite <- IH.
  - simpl. destruct (isspace c); rewrite <- !IH; reflexivity.
Qed.

Lemma split_on_from_absent (sep : ascii) (s cur : string) :
  occurs sep s = false -> split_on_from sep cur s = [cur +:+ s].
Proof.
  revert cur. induction s as [|c s IH]; intros cur; simpl.
  - now rewrite string_app_nil_r.
  - intros [Hc Hs]%orb_false_elim. rewrite Hc, IH by assumption.
    now rewrite string_app_snoc.
Qed.

Lemma rstrip_line_no_lf (text line : string) :
  In line (text_lines text) -> occurs "010" (rstrip line) = false.
Proof.
  intros (body & [-> | ->] & Hno & _)%text_lines_shape.
  - now apply occurs_rstrip.
  - unfold nl. rewrite rstrip_snoc_space by reflexivity. now apply occurs_rstrip.
Qed.

Lemma read_file_lf (fname text : string) (w : world) :
  files w !! fname = Some text ->
  read_file fname (Some "010"%char) w
  = (Ok (map (fun line => [rstrip line]) (text_lines text)),
     log (Opened fname "r") w).
Proof.
  intros Hf. unfold read_file, bind, open_read, ret. rewrite Hf.
  rewrite !List.map_map. f_equal. f_equal.
  apply map_ext_in. intros line Hin. unfold split_on.
  now rewrite split_on_from_absent by now apply (rstrip_line_no_lf text).
Qed.

(** X11. [read_file] raises FileNotFoundError on a missing file and
    logs nothing.  On an existing file, with the line feed as delimiter
    it returns one single-field list per line, the line without its
    trailing white space; with the default delimiter the stripping
    changes nothing and it returns what [collect_head] returns. *)
Theorem read_file_lines (fname : string) (w : world) :
  match files w !! fname with
  | None =>
      forall delim,
        read_file fname delim w = (Raise (FileNotFoundError fname), w)
  | Some text =>
      read_file fname (Some "010"%char) w
      = (Ok (map (fun line => [rstrip line]) (text_lines text)),
         log (Opened fname "r") w)
      /\ read_file fname None w
         = (Ok (map split (text_lines text)), log (Opened fname "r") w)
      /\ read_file fname None w = collect_head fname w
  end.
Proof.
  destruct (files w !! fname) as [text |] eqn:Hf.
  - split; [now apply read_file_lf |].
    unfold read_file, collect_head, bind, open_read, ret. rewrite Hf.
    rewrite collect_head_lines_spec, !List.map_map.
    assert (Hsplit : map (fun x => split (rstrip x)) (text_lines text)
                     = map split (text_lines text)).
    { apply map_ext. intros line. apply split_from_rstrip. }
    rewrite Hsplit. split; reflexivity.
  - intros delim. unfold read_file, bind, open_read. now rewrite Hf.
Qed.

Lemma total_line_text (n : nat) :
  total_line n = "Total  " +:+ str_of_nat n +:+ "   tests" +:+ nl.
Proof.
  unfold total_line, join. simpl. now rewrite string_app_assoc.
Qed.

(** X12. [collect_results] raises FileNotFoundError on a missing report
    and logs nothing; on an existing one it returns the records of the
    file's lines and logs the opening of the file followed by one
    printed line giving the number of records. *)
Theorem collect_results_reports_total (testsfile : string) (w : world) :
  match files w !! testsfile with
  | None =>
      collect_results testsfile w = (Raise (FileNotFoundError testsfile), w)
  | Some text =>
      exists recs,
        collect_lines (text_lines text) = Ok recs
        /\ length recs
           = length (List.filter retained (skipn 2 (text_lines text)))
        /\ collect_results testsfile w
           = (Ok recs,
              World (files w)
                (events w ++ [Opened testsfile "r";
                              Printed ("Total  " +:+ str_of_nat (length recs)
                                       +:+ "   tests" +:+ nl)])
                (strftime_now w) (TEMPLATE_PATH w) (unwritable w))
  end.
Proof.
  destruct (files w !! testsfile) as [text |] eqn:Hf.
  - eexists. split; [apply collect_lines_spec |].
    split; [now rewrite length_map |].
    unfold collect_results, bind, open_read, lift. rewrite Hf.
    rewrite collect_lines_spec. unfold print, ret, log.
    cbn [files events strftime_now TEMPLATE_PATH unwritable].
    fold (total_line (length (map record_of
                                (List.filter retained (skipn 2 (text_lines text)))))).
    now rewrite total_line_text, <- List.app_assoc.
  - unfold collect_results, bind, open_read. now rewrite Hf.
Qed.

(** ** Template substitution *)

Lemma substitute_text (body pre s out : string) :
  occurs "$" pre = false ->
  substitute_from body Text out (pre +:+ s)
  = substitute_from body Text (out +:+ pre) s.
Proof.
  revert out. induction pre as [|c pre IH]; intros out; simpl.
  - now rewrite string_app_nil_r.
  - intros [Hc Hpre]%orb_false_elim. rewrite Hc, IH by assumption.
    now rewrite string_app_snoc.
Qed.

Lemma substitute_text_end (body pre out : string) :
  occurs "$" pre = false ->
  substitute_from body Text out pre = Ok (out +:+ pre).
Proof.
  intros H. rewrite <- (string_app_nil_r pre) at 1.
  now rewrite substitute_text.
Qed.

Lemma substitute_braced (body name s acc out : string) :
  id_chars name = true ->
  substitute_from body (Braced acc) out (name +:+ s)
  = substitute_from body (Braced (acc +:+ name)) out s.
Proof.
  revert acc. induction name as [|c name IH]; intros acc; simpl.
  - now rewrite string_app_nil_r.
  - intros [Hc Hname]%andb_prop. rewrite Hc, IH by assumption.
    now rewrite string_app_snoc.
Qed.

Lemma substitute_named (body name s acc out : string) :
  id_chars name = true ->
  substitute_from body (Named acc) out (name +:+ s)
  = substitute_from body (Named (acc +:+ name)) out s.
Proof.
  revert acc. induction name as [|c name IH]; intros acc; simpl.
  - now rewrite string_app_nil_r.
  - intros [Hc Hname]%andb_prop. rewrite Hc, IH by assumption.
    now rewrite string_app_snoc.
Qed.

Lemma id_start_not_dollar (c : ascii) :
  is_id_start c = true -> Ascii.eqb c "$" = false.
Proof. destruct (Ascii.eqb_spec c "$") as [-> | _]; [discriminate | reflexivity]. Qed.


(** X13. What [substitute] does with a template holding one
    placeholder and no other dollar sign: [${body}] or [$body] is
    replaced by the report, which is not scanned again; any other
    identifier raises KeyError with its name; a doubled dollar sign
    becomes one; a dollar sign at the end raises ValueError. *)
Theorem template_placeholder (pre name post body : string) :
  occurs "$" pre = false -> occurs "$" post = false ->
  is_identifier name = true ->
  let filled :=
    if String.eqb name "body" then Ok (pre +:+ body +:+ post)
    else Raise (KeyError name) in
  substitute (pre +:+ "${" +:+ name +:+ "}" +:+ post) body = filled
  /\ (match post with
      | EmptyString => true
      | String c _ => negb (is_id_char c)
      end = true ->
      substitute (pre +:+ "$" +:+ name +:+ post) body = filled)
  /\ substitute (pre +:+ "$$" +:+ post) body = Ok (pre +:+ "$" +:+ post)
  /\ substitute (pre +:+ "$") body = Raise ValueError.
Proof.
  intros Hpre Hpost Hname filled. unfold substitute, filled.
  destruct name as [|n0 name]; [discriminate Hname |].
  simpl in Hname. apply andb_prop in Hname as [Hn0 Hname].
  split; [| split; [| split]].
  - rewrite (substitute_text body pre _ "" Hpre). simpl String.append.
    cbn [substitute_from]. change (Ascii.eqb "$" "$") with true.
    change (Ascii.eqb "{" "$") with false. change (is_id_start "{") with false.
    change (Ascii.eqb "{" "{") with true. cbn iota. rewrite Hn0.
    rewrite substitute_braced by assumption.
    cbn [substitute_from]. change (is_id_char "}") with false.
    change (Ascii.eqb "}" "}") with true. cbn iota.
    unfold lookup_body. destruct (String.eqb _ "body"); [| reflexivity].
    cbn [rbind]. rewrite substitute_text_end by assumption.
    now rewrite string_app_assoc.
  - intros Hnext. rewrite (substitute_text body pre _ "" Hpre).
    simpl String.append.
    cbn [substitute_from]. change (Ascii.eqb "$" "$") with true.
    cbn iota. rewrite (id_start_not_dollar n0 Hn0), Hn0.
    rewrite substitute_named by assumption.
    destruct post as [|c post].
    + cbn [substitute_from]. unfold lookup_body.
      destruct (String.eqb _ "body"); [| reflexivity].
      cbn [rbind]. now rewrite !string_app_nil_r.
    + apply negb_true_iff in Hnext. simpl in Hpost.
      apply orb_false_elim in Hpost as [Hc Hpost].
      cbn [substitute_from]. rewrite Hnext. unfold lookup_body.
      destruct (String.eqb _ "body"); [| reflexivity].
      cbn [rbind]. rewrite Hc. rewrite substitute_text_end by assumption.
      now rewrite string_app_snoc, string_app_assoc.
  - rewrite (substitute_text body pre _ "" Hpre). simpl String.append.
    cbn [substitute_from]. change (Ascii.eqb "$" "$") with true. cbn iota.
    rewrite substitute_text_end by assumption.
    now rewrite string_app_assoc.
  - rewrite (substitute_text body pre _ "" Hpre). reflexivity.
Qed.

Lemma template_placeholder_witness :
  substitute ("<html>" +:+ "${" +:+ "body" +:+ "}" +:+ "</html>") "a $ b"
  = Ok ("<html>" +:+ "a $ b" +:+ "</html>")
  /\ substitute ("<h1>" +:+ "$" +:+ "title" +:+ "</h1>") "x"
     = Raise (KeyError "title").
Proof.
  split.
  - apply (template_placeholder "<html>" "body" "</html>" "a $ b"); reflexivity.
  - destruct (template_placeholder "<h1>" "title" "</h1>" "x" eq_refl eq_refl
                eq_refl) as (_ & H & _).
    apply H. reflexivity.
Defined.

(** ** The report path *)

(** X14. The script writes over the report it has just read exactly
    when the report's extension is already [.html]: a report named
    like [dir/stem.html] has itself as HTML path and a completed run
    has replaced its contents; with any other extension, or with none,
    the HTML path differs from the report path.  A report path
    without any dot gets [.html] appended. *)
Theorem html_path_overwrites_html_report (report_name : string) :
  (html_path report_name = report_name <-> snd (splitext report_name) = ".html")
  /\ (occurs "." report_name = false ->
      html_path report_name = report_name +:+ ".html")
  /\ (forall dir stem,
        with_extension report_name dir stem "html" ->
        html_path report_name = report_name
        /\ forall to_email cc_email head_name w w',
             main to_email cc_email report_name head_name w = (Ok tt, w') ->
             exists html_report,
               files w' = <[report_name := html_report]> (files w)
               /\ files w' !! report_name = Some html_report)
  /\ (forall dir stem e,
        with_extension report_name dir stem e -> e <> "html" ->
        html_path report_name <> report_name)
  /\ (forall dir dots rest,
        without_extension report_name dir dots rest ->
        html_path report_name <> report_name).
Proof.
  assert (Hiff : html_path report_name = report_name
                 <-> snd (splitext report_name) = ".html").
  { unfold html_path. cbv zeta.
    rewrite <- (splitext_join report_name) at 2. split.
    - intros H. apply String.app_inj in H. now symmetry.
    - now intros ->. }
  split; [exact Hiff |]. split; [| split; [| split]].
  - intros H. unfold html_path, splitext.
    rewrite (rfind_absent "." report_name H).
    pose proof (rfind_lower_bound "/" report_name) as Hsep.
    destruct (Z.ltb_spec (rfind "/" report_name) (-1)); [lia | reflexivity].
  - intros dir stem H.
    assert (Hp : html_path report_name = report_name).
    { apply Hiff. now rewrite (splitext_with_extension _ _ _ _ H). }
    split; [exact Hp |].
    intros to_email cc_email head_name w w' Hrun.
    apply main_files in Hrun as [html_report Hrun]. rewrite Hp in Hrun.
    exists html_report. split; [exact Hrun |].
    rewrite Hrun. apply lookup_insert_eq.
  - intros dir stem e H He Hp. apply Hiff in Hp.
    rewrite (splitext_with_extension _ _ _ _ H) in Hp. simpl in Hp.
    congruence.
  - intros dir dots rest H Hp. apply Hiff in Hp.
    rewrite (splitext_without_extension _ _ _ _ H) in Hp. discriminate Hp.
Qed.

Lemma html_path_overwrites_html_report_witness :
  html_path "out/run-1/report" = "out/run-1/report" +:+ ".html"
  /\ html_path "run/report.html" = "run/report.html"
  /\ (exists html_report,
        files (snd (main "to.txt" "cc.txt" "run/report.html" "head.txt"
                      demo_world_html_report))
        = <["run/report.html" := html_report]> (files demo_world_html_report)
        /\ files (snd (main "to.txt" "cc.txt" "run/report.html" "head.txt"
                         demo_world_html_report)) !! "run/report.html"
           = Some html_report)
  /\ html_path "run/report.txt" <> "run/report.txt".
Proof.
  split; [| split; [| split]].
  - apply (html_path_overwrites_html_report "out/run-1/report"). reflexivity.
  - destruct (html_path_overwrites_html_report "run/report.html")
      as (_ & _ & H & _).
    apply (H "run/" "report"). repeat split.
  - destruct (html_path_overwrites_html_report "run/report.html")
      as (_ & _ & H & _).
    destruct (H "run/" "report") as [_ Hrun]; [repeat split |].
    apply (Hrun "to.txt" "cc.txt" "head.txt" demo_world_html_report).
    vm_compute. reflexivity.
  - destruct (html_path_overwrites_html_report "run/report.txt")
      as (_ & _ & _ & H & _).
    apply (H "run/" "report" "txt"); [repeat split | discriminate].
Defined.

(** ** Whole runs *)

Lemma bind_raise {A B} (m : io A) (k : A -> io B) (w w' : world) (e : exn) :
  bind m k w = (Raise e, w') ->
  m w = (Raise e, w') \/ exists a w1, m w = (Ok a, w1) /\ k a w1 = (Raise e, w').
Proof.
  unfold bind. destruct (m w) as [[a | e1] w1]; [eauto | intros [= -> ->]; now left].
Qed.

Section Env.
Context {A B : Type}.

Lemma env_ret (a : A) : keeps_env (ret a).
Proof. intros w. repeat split. Qed.

Lemma env_lift (r : result A) : keeps_env (lift r).
Proof. intros w. repeat split. Qed.

Lemma env_bind (m : io A) (k : A -> io B) :
  keeps_env m -> (forall a, keeps_env (k a)) -> keeps_env (bind m k).
Proof.
  intros Hm Hk w. unfold bind. specialize (Hm w).
  destruct (m w) as [[a | e] w1]; simpl in Hm; [| exact Hm].
  destruct (Hk a w1) as (F & S & T). destruct Hm as (F1 & S1 & T1).
  repeat split; congruence.
Qed.
End Env.

Lemma env_print (args : list string) : keeps_env (print args).
Proof. intros w. repeat split. Qed.

Lemma env_open_read (path : string) : keeps_env (open_read path).
Proof. intros w. unfold open_read. destruct (files w !! path); repeat split. Qed.

Create HintDb env.
#[local] Hint Resolve env_ret env_lift env_bind env_print env_open_read : env.

Lemma env_collect_results (testsfile : string) :
  keeps_env (collect_results testsfile).
Proof. unfold collect_results. auto 10 with env. Qed.

Lemma env_collect_head (headfile : string) : keeps_env (collect_head headfile).
Proof. unfold collect_head. auto with env. Qed.

Lemma env_run {A} (m : io A) (w w' : world) (r : result A) :
  keeps_env m -> m w = (r, w') ->
  files w' = files w /\ TEMPLATE_PATH w' = TEMPLATE_PATH w.
Proof. intros H E. destruct (H w) as (F & _ & T). rewrite E in F, T. now split. Qed.

Lemma open_read_ok (path text : string) (w w' : world) :
  open_read path w = (Ok text, w') -> files w !! path = Some text.
Proof.
  unfold open_read. destruct (files w !! path); [| discriminate].
  now intros [= -> _].
Qed.

Lemma collect_results_ok (testsfile : string) (w w' : world)
    (recs : list (list string)) :
  collect_results testsfile w = (Ok recs, w') ->
  is_Some (files w !! testsfile).
Proof.
  unfold collect_results. intros (text & w1 & E & _)%bind_ok.
  apply open_read_ok in E. eauto.
Qed.

Lemma collect_head_ok (headfile : string) (w w' : world)
    (head_info : list (list string)) :
  collect_head headfile w = (Ok head_info, w') ->
  is_Some (files w !! headfile).
Proof.
  unfold collect_head. intros (text & w1 & E & _)%bind_ok.
  apply open_read_ok in E. eauto.
Qed.

Lemma create_message_ok (test_list head_info : list (list string))
    (w w' : world) (html : string) :
  create_message test_list head_info w = (Ok html, w') ->
  is_Some (files w !! TEMPLATE_PATH w)
  /\ (exists html_head, create_head head_info = Ok html_head).
Proof.
  unfold create_message. intros H.
  apply bind_ok in H as (ts & w1 & E1 & H). injection E1 as _ <-.
  apply bind_ok in H as (hh & w2 & E2 & H). injection E2 as Hh <-.
  apply bind_ok in H as (ht & w3 & E3 & H). injection E3 as _ <-.
  apply bind_ok in H as (path & w4 & E4 & H). injection E4 as <- <-.
  apply bind_ok in H as (tpl & w5 & E5 & _).
  unfold read_file in E5. apply bind_ok in E5 as (text & w6 & E6 & _).
  apply open_read_ok in E6. eauto.
Qed.

Lemma create_email_ok (to_file cc_file html : string) (w w' : world) :
  create_email to_file cc_file html w = (Ok tt, w') ->
  is_Some (files w !! to_file) /\ is_Some (files w !! cc_file).
Proof.
  unfold create_email. intros H.
  apply bind_ok in H as (t & w1 & E1 & H).
  apply bind_ok in H as (c & w2 & E2 & _).
  pose proof (keeps_files_run _ _ _ _ (keeps_open_read to_file) E1) as F.
  apply open_read_ok in E1, E2. rewrite F in E2. eauto.
Qed.

(** X15. A run that ends in an exception has written nothing: every
    file is as it was when [main] was called, even when the whole
    report had been composed before the failure. *)
Theorem failed_run_writes_nothing
    (to_email cc_email report_name head_name : string) (w w' : world) (e : exn) :
  main to_email cc_email report_name head_name w = (Raise e, w') ->
  files w' = files w.
Proof.
  unfold main. intros H.
  apply bind_raise in H as [H | (? & w1 & E1 & H)];
    [now apply keeps_files_run in H; auto with keeps |].
  apply keeps_files_run in E1; [| auto with keeps].
  apply bind_raise in H as [H | (? & w2 & E2 & H)];
    [apply keeps_files_run in H; [congruence | auto with keeps] |].
  apply keeps_files_run in E2; [| auto with keeps].
  apply bind_raise in H as [H | (? & w3 & E3 & H)];
    [apply keeps_files_run in H; [congruence | auto with keeps] |].
  apply keeps_files_run in E3; [| auto with keeps].
  apply bind_raise in H as [H | (? & w4 & E4 & H)];
    [apply keeps_files_run in H; [congruence | auto with keeps] |].
  apply keeps_files_run in E4; [| auto with keeps].
  apply bind_raise in H as [H | (? & w5 & E5 & H)];
    [apply keeps_files_run in H; [congruence | auto with keeps] |].
  apply keeps_files_run in E5; [| auto with keeps].
  unfold write_file in H.
  destruct (unwritable w5 !! html_path report_name); [| discriminate H].
  injection H as _ <-. congruence.
Qed.

Lemma failed_run_writes_nothing_witness :
  files (snd (main "to.txt" "missing.txt" "out/run.1/report.txt" "head.txt"
                demo_world))
  = files demo_world.
Proof.
  apply (failed_run_writes_nothing "to.txt" "missing.txt" "out/run.1/report.txt"
           "head.txt" demo_world _ (FileNotFoundError "missing.txt")).
  vm_compute. reflexivity.
Defined.

(** X16. A run can only complete if the report, the head file, the
    template and both recipient files exist, and the head block could
    be built from the head file. *)
Theorem complete_run_needs_all_inputs
    (to_email cc_email report_name head_name : string) (w w' : world) :
  main to_email cc_email report_name head_name w = (Ok tt, w') ->
  is_Some (files w !! report_name)
  /\ is_Some (files w !! head_name)
  /\ is_Some (files w !! TEMPLATE_PATH w)
  /\ is_Some (files w !! to_email)
  /\ is_Some (files w !! cc_email)
  /\ (exists head html_head,
        files w !! head_name = Some head
        /\ create_head (collect_head_lines (text_lines head)) = Ok html_head).
Proof.
  unfold main. intros H.
  apply bind_ok in H as (? & w1 & E1 & H).
  apply (env_run _ _ _ _ (env_print _)) in E1 as [F1 T1].
  apply bind_ok in H as (test_list & w2 & E2 & H).
  pose proof (collect_results_ok _ _ _ _ E2) as Hreport.
  apply (env_run _ _ _ _ (env_collect_results _)) in E2 as [F2 T2].
  apply bind_ok in H as (head_info & w3 & E3 & H).
  pose proof (collect_head_ok _ _ _ _ E3) as Hhead.
  assert (Hinfo : exists head,
             files w2 !! head_name = Some head
             /\ head_info = collect_head_lines (text_lines head)).
  { unfold collect_head in E3. apply bind_ok in E3 as (head & w6 & E6 & E7).
    apply open_read_ok in E6. injection E7 as <- _. eauto. }
  apply (env_run _ _ _ _ (env_collect_head _)) in E3 as [F3 T3].
  apply bind_ok in H as (html_report & w4 & E4 & H).
  pose proof (create_message_ok _ _ _ _ _ E4) as [Htpl [html_head Hcreate]].
  apply keeps_files_run in E4; [| auto with keeps].
  apply bind_ok in H as ([] & w5 & E5 & _).
  apply create_email_ok in E5 as [Hto Hcc].
  destruct Hinfo as (head & Hh & ->).
  rewrite F1 in Hreport. rewrite F2, F1 in Hhead, Hh.
  rewrite T3, T2, T1, F3, F2, F1 in Htpl.
  rewrite E4, F3, F2, F1 in Hto, Hcc.
  repeat split; try assumption. eauto.
Qed.

Lemma complete_run_needs_all_inputs_witness :
  is_Some (files demo_world !! "cc.txt").
Proof.
  apply (complete_run_needs_all_inputs "to.txt" "cc.txt" "out/run.1/report.txt"
           "head.txt" demo_world
           (snd (main "to.txt" "cc.txt" "out/run.1/report.txt" "head.txt"
                   demo_world))).
  vm_compute. reflexivity.
Defined.

Lemma collect_results_events (testsfile text : string) (w : world)
    (recs : list (list string)) :
  files w !! testsfile = Some text ->
  collect_lines (text_lines text) = Ok recs ->
  collect_results testsfile w
  = (Ok recs,
     log (Printed (total_line (length recs))) (log (Opened testsfile "r") w)).
Proof.
  intros Hf Hrecs. unfold collect_results, bind, open_read, lift.
  now rewrite Hf, Hrecs.
Qed.

Lemma collect_head_events (headfile text : string) (w : world) :
  files w !! headfile = Some text ->
  collect_head headfile w
  = (Ok (collect_head_lines (text_lines text)), log (Opened headfile "r") w).
Proof. intros Hf. unfold collect_head, bind, open_read. now rewrite Hf. Qed.

Lemma template_text (text : string) :
  map (join "") (map (fun line => [rstrip line]) (text_lines text))
  = map rstrip (text_lines text).
Proof. rewrite List.map_map. now apply map_ext. Qed.

Lemma create_message_events (test_list head_info : list (list string))
    (w : world) (template html_head html_tables : string) :
  files w !! TEMPLATE_PATH w = Some template ->
  create_head head_info = Ok html_head ->
  create_table test_list = Ok html_tables ->
  create_message test_list head_info w
  = (substitute (join nl (map rstrip (text_lines template)))
       ((("<h1>" +:+ ("UVM Regression Tests " +:+ strftime_now w) +:+ "</h1>")
         +:+ html_head) +:+ html_tables),
     log (Opened (TEMPLATE_PATH w) "r") w).
Proof.
  intros Hf Hh Ht. unfold create_message.
  unfold bind at 1. unfold strftime.
  unfold bind at 1. unfold lift at 1. rewrite Hh.
  unfold bind at 1. unfold lift at 1. rewrite Ht.
  unfold bind at 1. unfold template_path.
  unfold bind at 1. rewrite (read_file_lf (TEMPLATE_PATH w) template w Hf).
  rewrite template_text. reflexivity.
Qed.

Lemma create_email_events (to_file cc_file html to_text cc_text : string)
    (w : world) :
  files w !! to_file = Some to_text ->
  files w !! cc_file = Some cc_text ->
  create_email to_file cc_file html w
  = (Ok tt, log (Opened cc_file "r") (log (Opened to_file "r") w)).
Proof.
  intros Hto Hcc. unfold create_email, bind, open_read. rewrite Hto.
  cbn [files log]. now rewrite Hcc.
Qed.

(** X17. When the five input files exist, the head block can be built
    and the template accepts the report, [main] prints its banner,
    reads the report, prints the record count, reads the head file, the
    template, the to-list and the cc-list in this order, and then opens
    the HTML path for writing.  If the operating system accepts that
    path the run completes with the substituted template written there
    and nothing else touched; if it refuses the path the run ends in
    the exception of the open, with every file as it was. *)
Theorem complete_run
    (to_email cc_email report_name head_name : string) (w : world)
    (to_text cc_text report head template : string)
    (recs : list (list string)) (html_head html_tables html_report : string) :
  files w !! to_email = Some to_text ->
  files w !! cc_email = Some cc_text ->
  files w !! report_name = Some report ->
  files w !! head_name = Some head ->
  files w !! TEMPLATE_PATH w = Some template ->
  collect_lines (text_lines report) = Ok recs ->
  create_head (collect_head_lines (text_lines head)) = Ok html_head ->
  create_table recs = Ok html_tables ->
  substitute (join nl (map rstrip (text_lines template)))
    ((("<h1>" +:+ ("UVM Regression Tests " +:+ strftime_now w) +:+ "</h1>")
      +:+ html_head) +:+ html_tables)
  = Ok html_report ->
  let read :=
    [Printed (banner to_email cc_email report_name head_name);
     Opened report_name "r";
     Printed (total_line (length recs));
     Opened head_name "r";
     Opened (TEMPLATE_PATH w) "r";
     Opened to_email "r";
     Opened cc_email "r"] in
  main to_email cc_email report_name head_name w
  = match unwritable w !! html_path report_name with
    | None =>
        (Ok tt,
         World (<[html_path report_name := html_report]> (files w))
           (events w ++ read ++ [Opened (html_path report_name) "w"])
           (strftime_now w) (TEMPLATE_PATH w) (unwritable w))
    | Some e =>
        (Raise e,
         World (files w) (events w ++ read) (strftime_now w) (TEMPLATE_PATH w)
           (unwritable w))
    end.
Proof.
  intros Hto Hcc Hreport Hhead Htpl Hrecs Hh Ht Hsub read. unfold main.
  unfold bind at 1. unfold print at 1.
  fold (banner to_email cc_email report_name head_name).
  set (w1 := log (Printed (banner to_email cc_email report_name head_name)) w).
  unfold bind at 1.
  rewrite (collect_results_events report_name report w1 recs Hreport Hrecs).
  set (w2 := log _ (log _ w1)).
  unfold bind at 1. rewrite (collect_head_events head_name head w2 Hhead).
  set (w3 := log _ w2).
  unfold bind at 1.
  rewrite (create_message_events recs _ w3 template html_head html_tables
             Htpl Hh Ht).
  change (strftime_now w3) with (strftime_now w). rewrite Hsub.
  set (w4 := log _ w3).
  unfold bind at 1.
  rewrite (create_email_events to_email cc_email html_report to_text cc_text w4
             Hto Hcc).
  unfold write_file, read, w4, w3, w2, w1, log.
  cbn [files events strftime_now TEMPLATE_PATH unwritable].
  destruct (unwritable w !! html_path report_name);
    now rewrite <- !List.app_assoc.
Qed.

Lemma complete_run_witness :
  (exists recs html_report,
     main "to.txt" "cc.txt" "out/run.1/report.txt" "head.txt" demo_world
     = (Ok tt,
        World (<[html_path "out/run.1/report.txt" := html_report]>
                 (files demo_world))
          (events demo_world ++
             [Printed (banner "to.txt" "cc.txt" "out/run.1/report.txt" "head.txt");
              Opened "out/run.1/report.txt" "r";
              Printed (total_line (length (recs : list (list string))));
              Opened "head.txt" "r";
              Opened (TEMPLATE_PATH demo_world) "r";
              Opened "to.txt" "r";
              Opened "cc.txt" "r"]
             ++ [Opened (html_path "out/run.1/report.txt") "w"])
          (strftime_now demo_world) (TEMPLATE_PATH demo_world)
          (unwritable demo_world)))
  /\ fst (main "to.txt" "cc.txt" "out/run.1/report.txt" "head.txt"
            demo_world_html_is_directory)
     = Raise (IsADirectoryError "out/run.1/report.html").
Proof.
  split.
  - eexists. eexists.
    eapply (complete_run "to.txt" "cc.txt" "out/run.1/report.txt" "head.txt"
              demo_world); vm_compute; reflexivity.
  - erewrite (complete_run "to.txt" "cc.txt" "out/run.1/report.txt" "head.txt"
                demo_world_html_is_directory);
      vm_compute; reflexivity.
Defined.


